(** * Entity-context state utilities of rx-angular-patterns

    A shallow embedding of the TypeScript sources under [src/app]:

    - [utils/rx/state/entity-context.utils.ts] (both generations of the file:
      the spread-based helpers [setEntityLoading], [updateEntity],
      [removeEntity], [updateCollection], [mergeContextState],
      [mergeCollectionState], and the [patch]-based helpers
      [withContextError], [mergeEntityContext]),
    - [utils/rx/state/with-loading-emission.ts] ([withLoadingEmission]),
    - [utils/rx/state/entity-selectors.ts] ([selectEntity]),
    - [state/todos.state.ts] (the [fetchTodos] connection),
    - [utils/rx/actions-with-tracking/proxy.ts] (the tracked dispatcher).

    The helpers are untyped at run time, so they are modelled over a universe
    of JavaScript values; object literals with spreads are written with [lit],
    property reads that raise a [TypeError] on [undefined]/[null] live in the
    [result] monad. *)

From Stdlib Require Import ZArith String Ascii DecimalString.
From stdpp Require Import base option gmap strings list.

Set Warnings "-register-all".
Open Scope string_scope.

(** ** JavaScript values *)
Module JS.

(** Numbers are the integers (entity ids, counters); arrays only occur as the
    argument of [updateCollection] and are Rocq lists there. An object is the
    dictionary of its own enumerable properties: the members every object
    inherits from [Object.prototype] ([constructor], [toString], ...) are left
    out, so property names are taken not to be among them. Two objects are
    equal when they hold the same properties, whatever the insertion order. *)
Inductive val : Type :=
  | VUndef
  | VNull
  | VBool (b : bool)
  | VNum (z : Z)
  | VStr (s : string)
  | VObj (m : gmap string val).

(** Outcome of evaluating an expression: a value or a thrown value. *)
Inductive result (A : Type) : Type :=
  | Ok (a : A)
  | Throw (e : val).
Arguments Ok {A} a.
Arguments Throw {A} e.

#[global] Instance result_ret : MRet result := fun A a => Ok a.
#[global] Instance result_bind : MBind result := fun A B f r =>
  match r with
  | Ok a => f a
  | Throw e => Throw e
  end.

(** The [TypeError] instance raised by the engine (its message is dropped). *)
Definition TypeError : val := VObj {[ "name" := VStr "TypeError" ]}.

(** [v === undefined || v === null] *)
Definition nullish (v : val) : bool :=
  match v with
  | VUndef | VNull => true
  | _ => false
  end.

(** ToBoolean *)
Definition truthy (v : val) : bool :=
  match v with
  | VUndef | VNull => false
  | VBool b => b
  | VNum z => negb (Z.eqb z 0)
  | VStr s => negb (String.eqb s "")
  | VObj _ => true
  end.

(** [a || b] and [a ?? b] on already evaluated operands. *)
Definition or_else (a b : val) : val := if truthy a then a else b.
Definition coalesce (a b : val) : val := if nullish a then b else a.

(** [String(v)] *)
Definition toStr (v : val) : string :=
  match v with
  | VUndef => "undefined"
  | VNull => "null"
  | VBool true => "true"
  | VBool false => "false"
  | VNum z => NilZero.string_of_int (Z.to_int z)
  | VStr s => s
  | VObj _ => "[object Object]"
  end.

(** Own enumerable index properties of a string primitive. *)
Definition chars (s : string) : gmap string val :=
  list_to_map
    (imap (fun i c => (toStr (VNum (Z.of_nat i)), VStr (String c EmptyString)))
          (list_ascii_of_string s)).

(** Own enumerable properties, as copied by [{...v}]: nothing for
    [undefined], [null], booleans and numbers. *)
Definition spread (v : val) : gmap string val :=
  match v with
  | VObj m => m
  | VStr s => chars s
  | _ => ∅
  end.

(** [Object.keys(v)] *)
Definition keys (v : val) : list string := (map_to_list (spread v)).*1.

(** [v[k]] on a value that is neither [undefined] nor [null]. *)
Definition prop (v : val) (k : string) : val :=
  match v with
  | VObj m => default VUndef (m !! k)
  | VStr s =>
      if String.eqb k "length" then VNum (Z.of_nat (String.length s))
      else default VUndef (chars s !! k)
  | _ => VUndef
  end.

(** [v[k]]: a [TypeError] when [v] is [undefined] or [null]. *)
Definition getProp (v : val) (k : string) : result val :=
  if nullish v then Throw TypeError else Ok (prop v k).

(** [v?.[k]] *)
Definition optProp (v : val) (k : string) : val :=
  if nullish v then VUndef else prop v k.

(** [v.k = x] in strict mode (ES modules): only objects accept it. *)
Definition setProp (v : val) (k : string) (x : val) : result val :=
  match v with
  | VObj m => Ok (VObj (<[k := x]> m))
  | _ => Throw TypeError
  end.

(** Object literals: the parts are applied left to right, a later part
    overriding the keys of the earlier ones. *)
Inductive part : Type :=
  | Spread (v : val)
  | Field (k : string) (v : val).

Definition add_part (m : gmap string val) (p : part) : gmap string val :=
  match p with
  | Spread v => spread v ∪ m
  | Field k v => <[k := v]> m
  end.

Definition lit (ps : list part) : val := VObj (fold_left add_part ps ∅).

(** [xs.reduce(f, init)] with a callback that may throw. *)
Fixpoint reduce {A : Type} (f : val -> A -> result val) (xs : list A) (acc : val)
  : result val :=
  match xs with
  | [] => Ok acc
  | x :: xs' => acc' ← f acc x; reduce f xs' acc'
  end.

End JS.
Export JS.

(** ** rxjs notifications and the operators the sources use

    A subscription is described by the notifications its subscriber receives,
    oldest first; a list that ends without [Complete] or [Error] is a
    subscription still pending. [startWith] and [endWith] are the rxjs
    operators ([concat(of(v), source)] and [concat(source, of(v))]). *)
Module Rx.

Inductive notification : Type :=
  | Next (v : val)
  | Error (e : val)
  | Complete.

Definition observable : Type := list notification.

(** [of(x1, ..., xn)] *)
Definition of_ (xs : list val) : observable := ((Next <$> xs) ++ [Complete])%list.

Definition startWith (v : val) (source : observable) : observable :=
  Next v :: source.

Fixpoint endWith (v : val) (source : observable) : observable :=
  match source with
  | [] => []
  | Next x :: rest => Next x :: endWith v rest
  | Error e :: _ => [Error e]
  | Complete :: _ => [Next v; Complete]
  end.

(** The values a subscriber has seen. *)
Definition values (o : observable) : list val :=
  omap (fun n => match n with Next v => Some v | _ => None end) o.

End Rx.
Export Rx.

(** ** utils/rx/state: loading emission, collection helpers, merges *)
Module EntityContext.

(** *** with-loading-emission.ts *)

Definition defaultLoadingProp : string := "loading".

(** [withLoadingEmission(property?)], applied to the source [o$]. *)
Definition withLoadingEmission (property : option string) (o : observable)
  : observable :=
  let _property := default defaultLoadingProp property in
  let start := lit [Field _property (VBool true)] in
  let end_ := lit [Field _property (VBool false)] in
  endWith end_ (startWith start o).

(** *** entity-context.utils.ts, spread-based helpers *)

Definition createInitialEntityState : val :=
  lit [Field "value" (lit []); Field "loading" (VBool false);
       Field "error" (VBool false)].

Definition setCollectionLoading (state : val) : val :=
  lit [Spread state; Field "loading" (VBool true); Field "error" (VBool false)].

Definition setCollectionError (state : val) : val :=
  lit [Spread state; Field "error" (VBool true); Field "loading" (VBool false)].

Definition setEntityLoading (state : val) (entityId : string) : result val :=
  sv ← getProp state "value";
  entry ← getProp sv entityId;
  mret (lit [Spread state;
             Field "value"
               (lit [Spread sv;
                     Field entityId
                       (lit [Spread entry; Field "loading" (VBool true);
                             Field "error" (VBool false)])])]).

Definition setEntityError (state : val) (entityId : string) : result val :=
  sv ← getProp state "value";
  entry ← getProp sv entityId;
  mret (lit [Spread state;
             Field "value"
               (lit [Spread sv;
                     Field entityId
                       (lit [Spread entry; Field "error" (VBool true);
                             Field "loading" (VBool false)])])]).

(** [state.value[entityId].value] is read without a guard: the second read of
    the entry is the one that raises when the entry is [undefined]. *)
Definition updateEntity (state : val) (entityId : string) (update : val)
  : result val :=
  sv ← getProp state "value";
  entry ← getProp sv entityId;
  inner ← getProp entry "value";
  mret (lit [Spread state;
             Field "value"
               (lit [Spread sv;
                     Field entityId
                       (lit [Spread entry;
                             Field "value" (lit [Spread inner; Spread update])])])]).

(** [const { [entityId]: removed, ...remaining } = state.value]: destructuring
    [undefined] or [null] raises. *)
Definition removeEntity (state : val) (entityId : string) : result val :=
  sv ← getProp state "value";
  if nullish sv then Throw TypeError
  else
    let remaining := VObj (delete entityId (spread sv)) in
    mret (lit [Spread state; Field "value" remaining]).

(** One step of the [reduce] callback of [updateCollection]. *)
Definition collect (idKey : string) (acc entity : val) : result val :=
  id ← getProp entity idKey;
  mret (lit [Spread acc;
             Field (toStr id)
               (lit [Field "value" entity; Field "loading" (VBool false);
                     Field "error" (VBool false)])]).

(** [updateCollection(entities, idKey = 'id')] *)
Definition updateCollection (entities : list val) (idKey : option string)
  : result val :=
  reduce (collect (default "id" idKey)) entities (lit []).

Definition mergeContextState (currentState update : val) : result val :=
  uv ← getProp update "value";
  v ← (if nullish uv then getProp currentState "value" else mret uv);
  mret (lit [Spread currentState; Spread update; Field "value" v]).

(** The entry [mergeCollectionState] builds for one key of [update.value]. *)
Definition mergedEntry (sv uv : val) (key : string) : val :=
  lit [Spread (optProp sv key);
       Spread (prop uv key);
       Field "value"
         (lit [Spread (or_else (optProp (optProp sv key) "value") (lit []));
               Spread (or_else (optProp (prop uv key) "value") (lit []))])].

Definition mergeCollectionState (state update : val) : result val :=
  let baseState := lit [Spread state; Spread update] in
  uv ← getProp update "value";
  if negb (truthy uv) then mret baseState
  else
    sv ← getProp state "value";
    updated ← reduce (fun acc key =>
                        mret (lit [Spread acc; Field key (mergedEntry sv uv key)]))
                     (keys uv) (lit []);
    mret (lit [Spread baseState;
               Field "value" (lit [Spread sv; Spread updated])]).

(** *** entity-context.utils.ts, [patch]-based helpers *)

(** [isObjectGuard] and [patch] of @rx-angular/cdk/transformations, the
    library the helpers import: a defined, non-array [typeof 'object'] value,
    and the shallow merge that falls back to the update alone, or to the
    original, when one side is not such an object. *)
Definition isObjectGuard (v : val) : bool :=
  match v with
  | VObj _ => true
  | _ => false
  end.

Definition patch (object upd : val) : val :=
  let update := if isObjectGuard upd then upd else lit [] in
  if negb (isObjectGuard object) && isObjectGuard upd then lit [Spread update]
  else if negb (isObjectGuard object) && negb (isObjectGuard upd) then object
  else lit [Spread object; Spread update].

Definition createInitialContext : val :=
  lit [Field "value" (lit []); Field "loading" (VBool false)].

(** [withContextResponse(value, id?)] *)
Definition withContextResponse (value : val) (id : option string) : val :=
  let id := from_option VStr VUndef id in
  lit [Field "value"
         (if truthy id
          then lit [Field (toStr id)
                      (lit [Field "value" value; Field "loading" (VBool false);
                            Field "error" VNull])]
          else value);
       Field "loading" (VBool false);
       Field "error" VNull].

(** [withContextError(error, id?)] *)
Definition withContextError (error : val) (id : option string) : result val :=
  let id := from_option VStr VUndef id in
  value ← (if truthy id
           then msg ← getProp error "message";
                mret (lit [Field (toStr id)
                             (lit [Field "value" VNull;
                                   Field "loading" (VBool false);
                                   Field "error" msg])])
           else mret (lit []));
  msg ← getProp error "message";
  mret (lit [Field "value" value;
             Field "loading" (VBool false);
             Field "error" (or_else msg (VStr "An error occurred"))]).

Definition mergeEntityContext (oldState newPartial : val) : result val :=
  let resultState := patch (or_else oldState createInitialContext) newPartial in
  let merged := patch (or_else (optProp oldState "value") (lit []))
                      (or_else (optProp resultState "value") (lit [])) in
  setProp resultState "value" merged.

(** [mergeEntityContextState(state, newPartial, key)] *)
Definition mergeEntityContextState (state newPartial : val) (key : string)
  : result val :=
  old ← getProp state key;
  merged ← mergeEntityContext old newPartial;
  value ← getProp merged "value";
  loading ← getProp newPartial "loading";
  error ← getProp newPartial "error";
  mret (lit [Spread state; Field "value" value; Field "loading" loading;
             Field "error" error]).

(** *** entity-selectors.ts *)

(** The projection of [selectEntity(id)]: [state?.value?.[id]?.value]. *)
Definition selectEntity (id : string) (state : val) : val :=
  optProp (optProp (optProp state "value") id) "value".

(** *** Collections *)

(** The entity mapping of an [EntityContextCollection]: an object whose
    [value] is an object. *)
Definition entries (C : val) : option (gmap string val) :=
  match C with
  | VObj m =>
      match m !! "value" with
      | Some (VObj es) => Some es
      | _ => None
      end
  | _ => None
  end.

End EntityContext.
Export EntityContext.

(** ** state/todos.state.ts: the [fetchTodos] connection *)
Module TodosState.

(** The projection given to [connect('todos', ...)] for the fetch-all stream:
    [(state, newPartial) => ({ ...state, value: mergeEntityContext(state.todos,
    newPartial).value, loading: newPartial.loading, error: newPartial.error })]. *)
Definition fetchTodosProject (state newPartial : val) : result val :=
  todos ← getProp state "todos";
  merged ← mergeEntityContext todos newPartial;
  value ← getProp merged "value";
  loading ← getProp newPartial "loading";
  error ← getProp newPartial "error";
  mret (lit [Spread state; Field "value" value; Field "loading" loading;
             Field "error" error]).

(** [connect(key, slice$, project)] of @rx-angular/state, for one emission of
    [slice$]: the projected value becomes the new [state[key]]. *)
Definition connect (key : string) (project : val -> val -> result val)
    (state slice : val) : result val :=
  v ← project state slice;
  mret (lit [Spread state; Field key v]).

(** [exhaustMap(project)] of rxjs, as the machine its implementation keeps:
    the active inner subscription, the running index, the completion flag of
    the source, together with the log of the calls made to [project] and of
    what the subscriber was sent. For [fetchTodos$] each call of [project] is
    one call of [todoService.getTodos()]. *)
Record exhaust : Type := {
  innerSub : option nat;
  index : nat;
  isComplete : bool;
  projected : list (val * nat);
  delivered : list notification
}.

Inductive event : Type :=
  | OuterNext (v : val)      (* the action subject emits: one dispatch *)
  | OuterComplete
  | InnerNext (x : val)      (* the active inner observable emits *)
  | InnerComplete.           (* the active inner observable settles *)

Definition idle : exhaust :=
  {| innerSub := None; index := 0; isComplete := false;
     projected := []; delivered := [] |}.

Definition exhaustMap_step (s : exhaust) (e : event) : exhaust :=
  match e with
  | OuterNext v =>
      match innerSub s with
      | None =>
          {| innerSub := Some (index s); index := S (index s);
             isComplete := isComplete s;
             projected := (projected s ++ [(v, index s)])%list;
             delivered := delivered s |}
      | Some _ => s
      end
  | OuterComplete =>
      {| innerSub := innerSub s; index := index s; isComplete := true;
         projected := projected s;
         delivered := match innerSub s with
                      | None => (delivered s ++ [Complete])%list
                      | Some _ => delivered s
                      end |}
  | InnerNext x =>
      match innerSub s with
      | Some _ =>
          {| innerSub := innerSub s; index := index s;
             isComplete := isComplete s; projected := projected s;
             delivered := (delivered s ++ [Next x])%list |}
      | None => s
      end
  | InnerComplete =>
      {| innerSub := None; index := index s; isComplete := isComplete s;
         projected := projected s;
         delivered := if isComplete s then (delivered s ++ [Complete])%list
                      else delivered s |}
  end.

Definition exhaustMap (events : list event) : exhaust :=
  fold_left exhaustMap_step events idle.

(** Number of calls made to the list operation of the fetch interface. *)
Definition listCalls (s : exhaust) : nat := length (projected s).

End TodosState.
Export TodosState.

(** ** utils/rx/actions-with-tracking/proxy.ts *)
Module ActionsProxy.

(** The three signals of one action, as the values they have emitted so far
    (oldest first). *)
Record tracking : Type := {
  loading_ : list val;
  complete_ : list val;
  error_ : list val
}.

(** A subject of [subjectMap]: whether it carries the tracking subscription
    installed by [getEventEmitter], and the values sent through it. *)
Record subject : Type := {
  tracked : bool;
  sent : list val
}.

Record world : Type := {
  stateMap : gmap string tracking;
  subjectMap : gmap string subject;
  handled : list val;        (* errorHandler.handleError calls *)
  microtasks : list string   (* pending [Promise.resolve] continuations *)
}.

Definition emptyWorld : world :=
  {| stateMap := ∅; subjectMap := ∅; handled := []; microtasks := [] |}.

(** Statements: they change the world and return or throw; what was changed
    before a throw stays changed. *)
Definition act (A : Type) : Type := world -> result A * world.

#[global] Instance act_ret : MRet act := fun A a w => (Ok a, w).
#[global] Instance act_bind : MBind act := fun A B f m w =>
  match m w with
  | (Ok a, w') => f a w'
  | (Throw e, w') => (Throw e, w')
  end.

Definition lift {A : Type} (r : result A) : act A := fun w => (r, w).

Definition tryCatch {A : Type} (body : act A) (handler : val -> act A) : act A :=
  fun w =>
    match body w with
    | (Throw e, w') => handler e w'
    | done => done
    end.

Definition when (b : bool) (a : act unit) : act unit :=
  if b then a else mret tt.

Definition setStateMap (f : gmap string tracking -> gmap string tracking)
  : act unit :=
  fun w => (Ok tt, {| stateMap := f (stateMap w); subjectMap := subjectMap w;
                      handled := handled w; microtasks := microtasks w |}).

Definition setSubjectMap (f : gmap string subject -> gmap string subject)
  : act unit :=
  fun w => (Ok tt, {| stateMap := stateMap w; subjectMap := f (subjectMap w);
                      handled := handled w; microtasks := microtasks w |}).

Definition setMicrotasks (f : list string -> list string) : act unit :=
  fun w => (Ok tt, {| stateMap := stateMap w; subjectMap := subjectMap w;
                      handled := handled w; microtasks := f (microtasks w) |}).

Definition freshTracking : tracking :=
  {| loading_ := [VBool false]; complete_ := []; error_ := [] |}.

Definition getOrCreateState (prop : string) : act unit :=
  setStateMap (fun sm => match sm !! prop with
                         | Some _ => sm
                         | None => <[prop := freshTracking]> sm
                         end).

(** [state.loading$.next(v)], [state.complete$.next(v)], [state.error$.next(v)] *)
Definition loadingNext (prop : string) (v : val) : act unit :=
  setStateMap (alter (fun t => {| loading_ := (loading_ t ++ [v])%list;
                                  complete_ := complete_ t;
                                  error_ := error_ t |}) prop).

Definition completeNext (prop : string) (v : val) : act unit :=
  setStateMap (alter (fun t => {| loading_ := loading_ t;
                                  complete_ := (complete_ t ++ [v])%list;
                                  error_ := error_ t |}) prop).

Definition errorNext (prop : string) (v : val) : act unit :=
  setStateMap (alter (fun t => {| loading_ := loading_ t;
                                  complete_ := complete_ t;
                                  error_ := (error_ t ++ [v])%list |}) prop).

(** [typeof v === 'object'] *)
Definition typeofObject (v : val) : bool :=
  match v with
  | VNull | VObj _ => true
  | _ => false
  end.

Section Handler.

(** The arguments of [actionProxyHandler]: the registered transforms and
    whether an [ErrorHandler] was given. *)
Variable transformsMap : gmap string (val -> result val).
Variable errorHandler : bool.

(** [errorHandler.handleError(err)], behind [if (errorHandler)] or [?.]. *)
Definition handleError (err : val) : act unit :=
  when errorHandler
    (fun w => (Ok tt, {| stateMap := stateMap w; subjectMap := subjectMap w;
                         handled := (handled w ++ [err])%list;
                         microtasks := microtasks w |})).

(** [transformsMap && transformsMap[prop] ? transformsMap[prop](value) : value] *)
Definition transformed (prop : string) (value : val) : result val :=
  match transformsMap !! prop with
  | Some f => f value
  | None => Ok value
  end.

(** What the subscription installed by [getEventEmitter] does with a value:
    [tap] raises the loading flag, [switchMap] drops the pending inner
    promise, transforms the value and waits for [Promise.resolve]. *)
Definition trackingPipe (prop : string) (value : val) : act unit :=
  loadingNext prop (VBool true);;
  setMicrotasks (filter (fun p => p ≠ prop));;
  tryCatch
    (_ ← lift (transformed prop value);
     setMicrotasks (fun q => (q ++ [prop])%list))
    (fun err =>
       loadingNext prop (VBool false);;
       errorNext prop err;;
       handleError err).

(** The continuation of a resolved promise: the [next] branch of the [tap]. *)
Definition settle (prop : string) : act unit :=
  setMicrotasks (filter (fun p => p ≠ prop));;
  loadingNext prop (VBool false);;
  completeNext prop (VBool true).

(** [subjectMap[prop].next(val)] *)
Definition subjectNext (prop : string) (v : val) : act unit :=
  fun w =>
    match subjectMap w !! prop with
    | Some s =>
        (setSubjectMap (<[prop := {| tracked := tracked s;
                                     sent := (sent s ++ [v])%list |}]>);;
         when (tracked s) (trackingPipe prop v)) w
    | None => (Throw TypeError, w)
    end.

Definition getEventEmitter (prop : string) : act unit :=
  fun w =>
    match subjectMap w !! prop with
    | Some _ => (Ok tt, w)
    | None =>
        (setSubjectMap (<[prop := {| tracked := true; sent := [] |}]>);;
         getOrCreateState prop) w
    end.

Definition dispatch (value : val) (prop : string) : act unit :=
  setSubjectMap (fun sm => match sm !! prop with
                           | Some _ => sm
                           | None => <[prop := {| tracked := false; sent := [] |}]> sm
                           end);;
  tryCatch
    (v ← lift (transformed prop value);
     subjectNext prop v)
    (fun err => handleError err).

(** The function the proxy returns for a plain property [prop], called with
    [args]. *)
Definition dispatcher (prop : string) (args : list val) : act unit :=
  let '(config, args) :=
    match last args with
    | Some c => if typeofObject c then (c, removelast args) else (lit [], args)
    | None => (lit [], args)
    end in
  getOrCreateState prop;;
  silent ← lift (getProp config "silent");
  when (negb (truthy silent)) (loadingNext prop (VBool true));;
  completeNext prop (VBool false);;
  errorNext prop VNull;;
  tryCatch
    (dispatch (default VUndef (head args)) prop)
    (fun err =>
       silent' ← lift (getProp config "silent");
       when (negb (truthy silent')) (loadingNext prop (VBool false));;
       errorNext prop err;;
       handleError err).

End Handler.

(** The current value of a signal: the last value it emitted. *)
Definition current (log : list val) : option val := last log.

End ActionsProxy.
Export ActionsProxy.

(** ** utils/rx/state: the remaining helpers, operators and selectors *)
Module EntityContextMore.

(** *** entity-context.utils.ts *)

Definition setContextLoading (state : val) : val :=
  lit [Spread state; Field "loading" (VBool true); Field "error" (VBool false)].

Definition setContextError (state : val) : val :=
  lit [Spread state; Field "loading" (VBool false); Field "error" (VBool true)].

(** What a source of [A] sends: the requests of the todos service emit
    [T[] | T], which is not a [val]. *)
Inductive item (A : Type) : Type :=
  | Value (a : A)
  | Failure (e : val)
  | End.
Arguments Value {A} a.
Arguments Failure {A} e.
Arguments End {A}.

(** [map(project)] of rxjs: a [project] that throws turns into the error
    notification and ends the subscription. *)
Fixpoint rxMap {A : Type} (project : A -> result val) (source : list (item A))
  : observable :=
  match source with
  | [] => []
  | Value a :: rest =>
      match project a with
      | Ok v => Next v :: rxMap project rest
      | Throw e => [Error e]
      end
  | Failure e :: _ => [Error e]
  | End :: _ => [Complete]
  end.

Definition asItems (o : observable) : list (item val) :=
  (fun n => match n with
            | Next v => Value v
            | Error e => Failure e
            | Complete => End
            end) <$> o.

(** [catchError(selector)] of rxjs: the error is replaced by the observable
    the selector returns, or by what the selector throws. *)
Fixpoint catchError (selector : val -> result observable) (source : observable)
  : observable :=
  match source with
  | [] => []
  | Next v :: rest => Next v :: catchError selector rest
  | Error e :: _ =>
      match selector e with
      | Ok o => o
      | Throw e' => [Error e']
      end
  | Complete :: _ => [Complete]
  end.

(** [Array.isArray(entities) ? entities : [entities]] *)
Definition asArray (entities : list val + val) : list val :=
  match entities with
  | inl l => l
  | inr e => [e]
  end.

(** [withTrackedEntityCollection(idKey = 'id')], applied to [request$]. *)
Definition withTrackedEntityCollection (idKey : option string)
    (request : list (item (list val + val))) : observable :=
  withLoadingEmission None
    (rxMap (fun entities =>
              value ← updateCollection (asArray entities) idKey;
              mret (lit [Field "value" value; Field "error" (VBool false)]))
           request).

(** *** entity-selectors.ts *)

(** The projection of [selectEntityWithContext(id)]. *)
Definition selectEntityWithContext (id : string) (state : val) : val :=
  let entry := optProp (optProp state "value") id in
  lit [Field "value" (optProp entry "value");
       Field "loading" (or_else (optProp entry "loading") (VBool false));
       Field "error" (optProp entry "error")].

(** [Object.values(v)]; the entries come in the order of [map_to_list], which
    matters below only when one of them is [undefined] or [null]. *)
Definition objectValues (v : val) : list val := (map_to_list (spread v)).*2.

(** [xs.some(f)] with a callback that may throw. *)
Fixpoint some (f : val -> result val) (xs : list val) : result val :=
  match xs with
  | [] => Ok (VBool false)
  | x :: rest => b ← f x; if truthy b then mret (VBool true) else some f rest
  end.

(** The projection of [selectIsLoading()]. *)
Definition selectIsLoading (state : val) : result val :=
  loading ← getProp state "loading";
  if truthy loading then mret (VBool true)
  else some (fun ctx => getProp ctx "loading")
            (objectValues (or_else (optProp state "value") (lit []))).

End EntityContextMore.
Export EntityContextMore.

(** ** state/todos2.state.ts and state/oldtodos.state.ts: the reducers *)
Module TodosStateService.

(** [connect(slice$, project)] of @rx-angular/state, for one emission: the
    partial state the projection returns is spread over the state. *)
Definition connectState (project : val -> val -> result val)
    (state slice : val) : result val :=
  partial ← project state slice;
  mret (lit [Spread state; Spread partial]).

(** The toggle reducer of todos2.state.ts: [(state, todoId) => ({ todos:
    updateEntity(state.todos, todoId, { completed:
    !state.todos.value[todoId].value.completed }) })]. *)
Definition toggleProject (state todoId : val) : result val :=
  todos ← getProp state "todos";
  sv ← getProp todos "value";
  entry ← getProp sv (toStr todoId);
  inner ← getProp entry "value";
  completed ← getProp inner "completed";
  updated ← updateEntity todos (toStr todoId)
              (lit [Field "completed" (VBool (negb (truthy completed)))]);
  mret (lit [Field "todos" updated]).

(** The toggle reducer of oldtodos.state.ts, written out with spreads. *)
Definition oldToggleProject (state todoId : val) : result val :=
  todos ← getProp state "todos";
  sv ← getProp todos "value";
  entry ← getProp sv (toStr todoId);
  inner ← getProp entry "value";
  completed ← getProp inner "completed";
  mret (lit [Field "todos"
               (lit [Spread todos;
                     Field "value"
                       (lit [Spread sv;
                             Field (toStr todoId)
                               (lit [Spread entry;
                                     Field "value"
                                       (lit [Spread inner;
                                             Field "completed"
                                               (VBool (negb (truthy completed)))])])])])]).

(** The load-all reducer of the later service: [(state, todos) => ({ todos:
    mergeCollectionState(state.todos, todos) })]. *)
Definition loadAllProject (state todos : val) : result val :=
  old ← getProp state "todos";
  merged ← mergeCollectionState old todos;
  mret (lit [Field "todos" merged]).

(** The states a stream of emissions leads through, reduced one by one. *)
Fixpoint reduceAll (step : val -> val -> result val) (state : val)
    (slices : list val) : result val :=
  match slices with
  | [] => Ok state
  | slice :: rest => state' ← step state slice; reduceAll step state' rest
  end.

End TodosStateService.
Export TodosStateService.

(** ** state/todos.state.ts: the inner stream of the fetch-all connection *)
Module TodosStream.

(** [this.todoService.getTodos().pipe(withLoadingEmission(), map((todos) =>
    withContextResponse(todos)), catchError((error) =>
    of(withContextError(error))))], for the notifications [request] of
    [getTodos()]. *)
Definition fetchTodosInner (request : observable) : observable :=
  catchError (fun error => P ← withContextError error None; mret (of_ [P]))
    (rxMap (fun todos => mret (withContextResponse todos None))
           (asItems (withLoadingEmission None request))).

(** The payloads a stream of events dispatches. *)
Definition dispatched (events : list event) : list val :=
  omap (fun e => match e with OuterNext v => Some v | _ => None end) events.



End TodosStream.
Export TodosStream.

(** ** utils/rx/actions-with-tracking/proxy.ts: the traps of the proxy *)
Module ProxyTraps.

Fixpoint forEach {A : Type} (f : A -> act unit) (xs : list A) : act unit :=
  match xs with
  | [] => mret tt
  | x :: rest => f x;; forEach f rest
  end.

(** [Object.entries(v)]: a [TypeError] on [undefined] and [null]; the entries
    come in the order of [map_to_list]. *)
Definition objectEntries (v : val) : result (list (string * val)) :=
  if nullish v then Throw TypeError else Ok (map_to_list (spread v)).

(** The [apply] trap, [actions({propA: 1, propB: 2})], for the slices
    [props]. *)
Definition apply (transformsMap : gmap string (val -> result val))
    (errorHandler : bool) (props : list val) : act unit :=
  forEach (fun slice =>
             kvs ← lift (objectEntries slice);
             forEach (fun kv => dispatch transformsMap errorHandler kv.2 kv.1)
                     kvs)
          props.

(** What the [get] trap hands out for a property name. The action of
    [EffectOf] is [None] when the character after [on] is outside ASCII. *)
Inductive accessor : Type :=
  | LoadingOf (action : string)     (* [getOrCreateState(action).loading$] *)
  | CompleteOf (action : string)
  | ErrorOf (action : string)
  | MergeOf                          (* [$(props)] *)
  | EmitterOf (action : string)      (* [getEventEmitter(action)] *)
  | EffectOf (action : option string)
                                     (* [onAction(behaviour, sf)] *)
  | DispatcherOf (action : string).  (* [action(...args)] *)

(** [s.endsWith(suffix)] and [s] without its last [n] characters. *)
Definition endsWith (s suffix : string) : bool :=
  bool_decide (list_ascii_of_string suffix `suffix_of` list_ascii_of_string s).

Definition dropLast (n : nat) (s : string) : string :=
  let l := list_ascii_of_string s in
  string_of_list_ascii (take (length l - n) l).

(** [c.toLowerCase()] for an ASCII character: the letters [A]-[Z] are
    lowered and every other ASCII character is kept. A byte from 128 on is
    part of the encoding of a character outside ASCII, whose lower case the
    byte does not determine: [None]. *)
Definition lowerChar (c : ascii) : option ascii :=
  let n := nat_of_ascii c in
  if (128 <=? n)%nat then None
  else if (65 <=? n)%nat && (n <=? 90)%nat then Some (ascii_of_nat (n + 32))
  else Some c.

(** [s.charAt(0).toLowerCase() + s.slice(1)] *)
Definition lowerFirst (s : string) : option string :=
  match s with
  | EmptyString => Some EmptyString
  | String c rest => c' ← lowerChar c; Some (String c' rest)
  end.

(** The [get] trap: the tests are made in this order. *)
Definition route (property : string) : accessor :=
  if endsWith property "Loading$" then LoadingOf (dropLast 8 property)
  else if endsWith property "Complete$" then CompleteOf (dropLast 9 property)
  else if endsWith property "Error$" then ErrorOf (dropLast 6 property)
  else if endsWith property "$" then
    if (String.length property =? 1)%nat then MergeOf
    else EmitterOf (dropLast 1 property)
  else if String.prefix "on" property then
    EffectOf (lowerFirst (String.substring 2 (String.length property - 2) property))
  else DispatcherOf property.

End ProxyTraps.
Export ProxyTraps.

(** ** Vocabulary of the statements *)

(** The key [updateCollection] files an entity under, and the entry it
    builds for it. *)
Definition idOf (idKey : option string) (entity : val) : string :=
  toStr (prop entity (default "id" idKey)).

Definition freshEntry (entity : val) : val :=
  lit [Field "value" entity; Field "loading" (VBool false);
       Field "error" (VBool false)].

(** Entries filed one after the other, a later one replacing an earlier one
    with the same key. *)
Definition filed (idKey : option string) (entities : list val)
    (acc : gmap string val) : gmap string val :=
  fold_left (fun a e => <[idOf idKey e := freshEntry e]> a) entities acc.

(** Sample data: a todo, a collection holding it, and a failure. *)
Definition sampleTodo : val :=
  lit [Field "id" (VStr "1"); Field "name" (VStr "A"); Field "done" (VBool false)].

Definition sampleCollection : val :=
  lit [Field "value" (lit [Field "1" (freshEntry sampleTodo)]);
       Field "loading" (VBool false); Field "error" (VBool false)].

Definition boom : val := lit [Field "message" (VStr "boom")].

(** The update [withContextError] builds for a collection-level failure. *)
Definition failureUpdate (msg : val) : val :=
  lit [Field "value" (lit []); Field "loading" (VBool false); Field "error" msg].

(** The contexts of the example of the merge rule: [{a:1,b:2}] and [{b:3}]. *)
Definition oldContext : val :=
  lit [Field "value" (lit [Field "a" (VNum 1); Field "b" (VNum 2)]);
       Field "loading" (VBool false)].

Definition partialContext : val :=
  lit [Field "value" (lit [Field "b" (VNum 3)])].

(** The mapping of [sampleCollection], and the fields of a response for a
    second todo filed under ["2"]. *)
Definition sampleEntries : gmap string val := {[ "1" := freshEntry sampleTodo ]}.

Definition otherEntries : gmap string val :=
  {[ "2" := lit [Field "value" (lit [Field "id" (VStr "2")]);
                 Field "loading" (VBool false); Field "error" VNull] ]}.

Definition otherResponse : gmap string val :=
  {[ "value" := VObj otherEntries; "loading" := VBool false; "error" := VNull ]}.

(** A transform that rejects every payload. *)
Definition rejecting : val -> result val := fun _ => Throw boom.

Definition throwingTransforms : gmap string (val -> result val) :=
  {[ "fetchTodo" := rejecting ]}.

(** A todo of the later services, with a numeric id: its fields, its entry,
    the mapping and the collection that hold it, and a state with that
    collection. *)
Definition sampleTaskFields : gmap string val :=
  {[ "id" := VNum 7; "completed" := VBool false ]}.

Definition sampleTaskEntry : gmap string val :=
  {[ "value" := VObj sampleTaskFields; "loading" := VBool false;
     "error" := VBool false ]}.

Definition sampleTasks : gmap string val := {[ "7" := VObj sampleTaskEntry ]}.

Definition sampleTaskCollection : val :=
  VObj {[ "value" := VObj sampleTasks; "loading" := VBool false;
          "error" := VBool false ]}.

Definition sampleState : gmap string val :=
  {[ "todos" := sampleTaskCollection ]}.

(** An update that marks that todo as completed. *)
Definition completedFields : gmap string val := {[ "completed" := VBool true ]}.

Definition completedEntry : gmap string val :=
  {[ "value" := VObj completedFields; "loading" := VBool false ]}.

Definition completedEntries : gmap string val :=
  {[ "7" := VObj completedEntry ]}.

Definition completedUpdate : gmap string val :=
  {[ "value" := VObj completedEntries ]}.

(** The fields of [boom], of a loading marker and of a silent configuration. *)
Definition boomFields : gmap string val := {[ "message" := VStr "boom" ]}.

Definition loadingMarker : gmap string val := {[ "loading" := VBool true ]}.

Definition silentConfig : gmap string val := {[ "silent" := VBool true ]}.


(** A slice for the bulk dispatch: [{fetchTodo: '42'}]. *)
Definition sampleSlice : val := lit [Field "fetchTodo" (VStr "42")].

(** A proxy without transforms: after [loadAll$] has been accessed, with the
    subject it has then; and after [loadAll(1)] has been called on a fresh
    one. *)
Definition noTransforms : gmap string (val -> result val) := ∅.

Definition trackedWorld : world := (getEventEmitter "loadAll" emptyWorld).2.

Definition trackedSubject : subject := {| tracked := true; sent := [] |}.

Definition dispatchedWorld : world :=
  (dispatcher noTransforms false "loadAll" [VNum 1] emptyWorld).2.

(** * Properties *)

(** ** Object literals and collections *)

Lemma lit_spread_field (s : val) (k : string) (v : val) :
  lit [Spread s; Field k v] = VObj (<[k := v]> (spread s)).
Proof. unfold lit; cbn [fold_left add_part]. by rewrite (right_id_L ∅ (∪)). Qed.

Lemma lit_spread_spread (s u : val) :
  lit [Spread s; Spread u] = VObj (spread u ∪ spread s).
Proof. unfold lit; cbn [fold_left add_part]. by rewrite (right_id_L ∅ (∪)). Qed.

Lemma lit_spread_spread_field (s u : val) (k : string) (v : val) :
  lit [Spread s; Spread u; Field k v] = VObj (<[k := v]> (spread u ∪ spread s)).
Proof. unfold lit; cbn [fold_left add_part]. by rewrite (right_id_L ∅ (∪)). Qed.

Lemma lit_spread_fields3 (s : val) (k1 k2 k3 : string) (v1 v2 v3 : val) :
  lit [Spread s; Field k1 v1; Field k2 v2; Field k3 v3] =
  VObj (<[k3 := v3]> (<[k2 := v2]> (<[k1 := v1]> (spread s)))).
Proof. unfold lit; cbn [fold_left add_part]. by rewrite (right_id_L ∅ (∪)). Qed.

Lemma lit_spread (s : val) : lit [Spread s] = VObj (spread s).
Proof. unfold lit; cbn [fold_left add_part]. by rewrite (right_id_L ∅ (∪)). Qed.

Lemma lit_empty : lit [] = VObj ∅.
Proof. reflexivity. Qed.

(** The shapes of literal the helpers build, as a rewriting base. *)
Create Rewrite HintDb js.
#[local] Hint Rewrite lit_spread_field lit_spread_spread lit_spread_spread_field
  lit_spread_fields3 lit_spread : js.

Lemma entries_inv (C : val) (es : gmap string val) :
  entries C = Some es ->
  exists m, C = VObj m /\ m !! "value" = Some (VObj es).
Proof.
  destruct C as [| | | | |m]; try discriminate. cbn [entries].
  destruct (m !! "value") as [[| | | | |es']|] eqn:E; try discriminate.
  intros [= ->]. by exists m.
Qed.

(** Replace a collection by the object behind it. *)
Ltac open_collection m Hm := intros (m & -> & Hm)%entries_inv.

Lemma entries_insert_value (m es : gmap string val) :
  entries (VObj (<["value" := VObj es]> m)) = Some es.
Proof. cbn [entries]. by rewrite lookup_insert_eq. Qed.

Lemma getProp_Some (m : gmap string val) (k : string) (v : val) :
  m !! k = Some v -> getProp (VObj m) k = Ok v.
Proof. intros H. unfold getProp. cbn [nullish prop]. by rewrite H. Qed.

Lemma getProp_None (m : gmap string val) (k : string) :
  m !! k = None -> getProp (VObj m) k = Ok VUndef.
Proof. intros H. unfold getProp. cbn [nullish prop]. by rewrite H. Qed.

Lemma prop_Some (m : gmap string val) (k : string) (v : val) :
  m !! k = Some v -> prop (VObj m) k = v.
Proof. intros H. cbn [prop]. by rewrite H. Qed.

Lemma prop_None (m : gmap string val) (k : string) :
  m !! k = None -> prop (VObj m) k = VUndef.
Proof. intros H. cbn [prop]. by rewrite H. Qed.

Lemma optProp_obj (m : gmap string val) (k : string) :
  optProp (VObj m) k = prop (VObj m) k.
Proof. reflexivity. Qed.

Lemma getProp_obj (m : gmap string val) (k : string) :
  getProp (VObj m) k = Ok (prop (VObj m) k).
Proof. reflexivity. Qed.

Lemma bind_Ok {A B : Type} (a : A) (f : A -> result B) : (Ok a ≫= f) = f a.
Proof. reflexivity. Qed.

Lemma bind_Throw {A B : Type} (e : val) (f : A -> result B) :
  (Throw e ≫= f) = Throw e.
Proof. reflexivity. Qed.

(** ** removeEntity *)

Lemma removeEntity_collection (m es : gmap string val) (k : string) :
  m !! "value" = Some (VObj es) ->
  removeEntity (VObj m) k = Ok (VObj (<["value" := VObj (delete k es)]> m)).
Proof.
  intros Hv. unfold removeEntity. rewrite (getProp_Some _ _ _ Hv), bind_Ok.
  cbn [nullish spread]. by rewrite lit_spread_field.
Qed.

(** C8. Removing an entity twice is the same as removing it once, and
    removing an id the collection does not hold returns the collection as it
    was instead of raising. *)
Theorem removeEntity_idempotent (C : val) (k : string) (es : gmap string val) :
  entries C = Some es ->
  exists C',
    removeEntity C k = Ok C' /\
    removeEntity C' k = Ok C' /\
    entries C' = Some (delete k es) /\
    (es !! k = None -> C' = C).
Proof.
  open_collection m Hv.
  exists (VObj (<["value" := VObj (delete k es)]> m)).
  split; [by apply removeEntity_collection|]. split; [|split].
  - rewrite (removeEntity_collection _ (delete k es)) by apply lookup_insert_eq.
    by rewrite delete_delete_eq, insert_insert_eq.
  - apply entries_insert_value.
  - intros Hk. rewrite delete_id by done. by rewrite insert_id.
Qed.

(** ** setEntityLoading and selectEntity *)

(** C10. On an id the collection does not hold, [setEntityLoading] creates
    the entry [{loading: true, error: false}]: it has no [value] key, the other
    entries are kept, and [selectEntity] reads [undefined] from it. *)
Theorem setEntityLoading_absent (C : val) (k : string) (es : gmap string val) :
  entries C = Some es ->
  es !! k = None ->
  exists C' entry,
    setEntityLoading C k = Ok C' /\
    entries C' = Some (<[k := VObj entry]> es) /\
    entry = {[ "loading" := VBool true; "error" := VBool false ]} /\
    entry !! "value" = None /\
    selectEntity k C' = VUndef.
Proof.
  open_collection m Hv. intros Hk.
  exists (VObj (<["value" := VObj (<[k := lit [Field "loading" (VBool true);
                                              Field "error" (VBool false)]]> es)]> m)),
         {[ "loading" := VBool true; "error" := VBool false ]}.
  split; [|split; [|split; [|split]]].
  - unfold setEntityLoading. rewrite (getProp_Some _ _ _ Hv), bind_Ok.
    rewrite (getProp_None _ _ Hk), bind_Ok.
    rewrite !lit_spread_field. cbn [spread mret result_ret].
    by do 3 f_equal.
  - rewrite entries_insert_value. by do 2 f_equal.
  - reflexivity.
  - reflexivity.
  - unfold selectEntity.
    rewrite optProp_obj, (prop_Some _ _ _ (lookup_insert_eq _ _ _)).
    rewrite optProp_obj, (prop_Some _ _ _ (lookup_insert_eq _ _ _)).
    reflexivity.
Qed.

(** ** updateEntity *)

(** On an id the collection holds, with an entry that is not [null], the
    entry's [value] becomes the shallow merge of the previous value with the
    update, and the other fields of the entry and the other entries stay. *)
Lemma updateEntity_present (C : val) (k : string) (P e : val)
    (es : gmap string val) :
  entries C = Some es ->
  es !! k = Some e ->
  nullish e = false ->
  exists C',
    updateEntity C k P = Ok C' /\
    entries C' =
      Some (<[k := VObj (<["value" := VObj (spread P ∪ spread (prop e "value"))]>
                          (spread e))]> es).
Proof.
  open_collection m Hv. intros Hk He.
  eexists. split.
  - unfold updateEntity. rewrite (getProp_Some _ _ _ Hv), bind_Ok.
    rewrite (getProp_Some _ _ _ Hk), bind_Ok.
    unfold getProp. rewrite He, bind_Ok. reflexivity.
  - autorewrite with js. cbn [spread]. apply entries_insert_value.
Qed.

(** C7. On an id the collection does not hold, [updateEntity] reads
    [state.value[entityId].value] from [undefined] and raises a [TypeError]:
    no entry is created. *)
Theorem updateEntity_absent_throws (C : val) (k : string) (P : val)
    (es : gmap string val) :
  entries C = Some es ->
  es !! k = None ->
  updateEntity C k P = Throw TypeError.
Proof.
  open_collection m Hv. intros Hk.
  unfold updateEntity. rewrite (getProp_Some _ _ _ Hv), bind_Ok.
  rewrite (getProp_None _ _ Hk), bind_Ok. reflexivity.
Qed.

(** ** updateCollection *)

Lemma freshEntry_fields (e : val) :
  prop (freshEntry e) "value" = e /\
  prop (freshEntry e) "loading" = VBool false /\
  prop (freshEntry e) "error" = VBool false.
Proof. by split_and!. Qed.

Lemma collect_step (idKey : option string) (acc : gmap string val) (e : val) :
  nullish e = false ->
  collect (default "id" idKey) (VObj acc) e =
  Ok (VObj (<[idOf idKey e := freshEntry e]> acc)).
Proof.
  intros He. unfold collect, getProp. rewrite He, bind_Ok.
  cbn [mret result_ret]. by rewrite lit_spread_field.
Qed.

Lemma updateCollection_filed (idKey : option string) (entities : list val)
    (acc : gmap string val) :
  Forall (fun e => nullish e = false) entities ->
  reduce (collect (default "id" idKey)) entities (VObj acc) =
  Ok (VObj (filed idKey entities acc)).
Proof.
  intros Hall. revert acc.
  induction Hall as [|e l He _ IH]; intros acc; [done|].
  cbn [reduce]. rewrite collect_step, bind_Ok by done. apply IH.
Qed.

Lemma filed_snoc (idKey : option string) (l : list val) (e : val)
    (acc : gmap string val) :
  filed idKey (l ++ [e]) acc = <[idOf idKey e := freshEntry e]> (filed idKey l acc).
Proof. unfold filed. by rewrite fold_left_app. Qed.

Lemma filed_lookup (idKey : option string) (l : list val)
    (acc : gmap string val) (k : string) :
  filed idKey l acc !! k =
  match last (filter (fun e => idOf idKey e = k) l) with
  | Some e => Some (freshEntry e)
  | None => acc !! k
  end.
Proof.
  induction l as [|e l IH] using rev_ind; [done|].
  rewrite filed_snoc, filter_app.
  destruct (decide (idOf idKey e = k)) as [Hk|Hk].
  - rewrite filter_cons_True, filter_nil by done.
    rewrite last_snoc. subst k. apply lookup_insert_eq.
  - rewrite filter_cons_False, filter_nil by done.
    rewrite (right_id_L [] (++)%list). by rewrite lookup_insert_ne.
Qed.

Lemma NoDup_fmap_eq {A B : Type} (f : A -> B) (l : list A) (x y : A) :
  NoDup (f <$> l) -> x ∈ l -> y ∈ l -> f x = f y -> x = y.
Proof.
  induction l as [|a l IH]; [by intros _ ?%elem_of_nil|].
  rewrite fmap_cons, NoDup_cons. intros [Ha Hl] Hx Hy Hf.
  apply elem_of_cons in Hx as [->|Hx], Hy as [->|Hy]; [done| | |by apply IH].
  - exfalso. apply Ha. rewrite Hf. by apply list_elem_of_fmap_2.
  - exfalso. apply Ha. rewrite <- Hf. by apply list_elem_of_fmap_2.
Qed.

Lemma filed_size (idKey : option string) (l : list val) :
  NoDup (idOf idKey <$> l) -> size (filed idKey l ∅) = length l.
Proof.
  induction l as [|e l IH] using rev_ind; [done|].
  rewrite fmap_app, NoDup_app. intros (Hl & Hfresh & _).
  rewrite filed_snoc, length_app, map_size_insert_None.
  - rewrite IH by done. cbn. lia.
  - rewrite filed_lookup.
    destruct (last _) as [e'|] eqn:E; [|done].
    apply last_Some_elem_of, list_elem_of_filter in E as [Hid He'].
    exfalso. apply (Hfresh (idOf idKey e')).
    + by apply list_elem_of_fmap_2.
    + rewrite Hid. cbn. apply elem_of_cons. by left.
Qed.

(** C9 (as amended). [updateCollection] files every item under its id-key
    field converted to string; every entry it returns is the fresh entry of an
    item with that key, with [loading] and [error] both [false]; when the keys
    of the items are pairwise distinct there is exactly one entry per item,
    holding that item. *)
Theorem updateCollection_fresh_entries (entities : list val)
    (idKey : option string) :
  Forall (fun e => nullish e = false) entities ->
  exists m,
    updateCollection entities idKey = Ok (VObj m) /\
    (forall k entry, m !! k = Some entry ->
       exists e, e ∈ entities /\ idOf idKey e = k /\
                 prop entry "value" = e /\
                 prop entry "loading" = VBool false /\
                 prop entry "error" = VBool false) /\
    (forall e, e ∈ entities -> is_Some (m !! idOf idKey e)) /\
    (NoDup (idOf idKey <$> entities) ->
       size m = length entities /\
       forall e, e ∈ entities -> m !! idOf idKey e = Some (freshEntry e)).
Proof.
  intros Hall. exists (filed idKey entities ∅).
  assert (Hin : forall e, e ∈ entities ->
            exists e', e' ∈ entities /\ idOf idKey e' = idOf idKey e /\
              filed idKey entities ∅ !! idOf idKey e = Some (freshEntry e')).
  { intros e He. rewrite filed_lookup.
    destruct (last _) as [e'|] eqn:E.
    - apply last_Some_elem_of, list_elem_of_filter in E as [Hid He']. eauto.
    - apply last_None in E.
      by apply (filter_nil_not_elem_of _ _ e) in E. }
  split_and!.
  - unfold updateCollection. rewrite lit_empty. by apply updateCollection_filed.
  - intros k entry. rewrite filed_lookup, lookup_empty.
    destruct (last _) as [e|] eqn:E; [|done]. intros [= <-].
    apply last_Some_elem_of, list_elem_of_filter in E as [Hid He].
    exists e. by split_and!.
  - intros e (e' & _ & _ & ->)%Hin. eauto.
  - intros Hnd. split; [by apply filed_size|].
    intros e He. destruct (Hin e He) as (e' & He' & Hid & ->).
    by rewrite (NoDup_fmap_eq _ _ _ _ Hnd He' He Hid).
Qed.

(** C9, the claim as written fails: the entry built for the sample todo has
    [error] equal to [false], not to [undefined]. *)
Lemma updateCollection_error_is_false_not_undefined :
  ~ (forall m k entry,
       updateCollection [sampleTodo] None = Ok (VObj m) ->
       m !! k = Some entry ->
       prop entry "loading" = VBool false /\ prop entry "error" = VUndef).
Proof.
  intros H.
  destruct (H (filed None [sampleTodo] ∅) "1" (freshEntry sampleTodo))
    as [_ He]; [by vm_compute..|].
  vm_compute in He. discriminate.
Qed.

(** ** mergeEntityContext, mergeCollectionState, mergeContextState *)

(** On objects whose [value] are objects, [mergeEntityContext] is the
    right-biased union at both levels. *)
Lemma patch_obj (a b : gmap string val) :
  patch (VObj a) (VObj b) = VObj (b ∪ a).
Proof.
  unfold patch. cbn [isObjectGuard negb andb]. by rewrite lit_spread_spread.
Qed.

Lemma or_else_obj (a : gmap string val) (b : val) :
  or_else (VObj a) b = VObj a.
Proof. reflexivity. Qed.

Lemma mergeEntityContext_collection (m es p pv : gmap string val) :
  m !! "value" = Some (VObj es) ->
  p !! "value" = Some (VObj pv) ->
  mergeEntityContext (VObj m) (VObj p) =
  Ok (VObj (<["value" := VObj (pv ∪ es)]> (p ∪ m))).
Proof.
  intros Hm Hp. unfold mergeEntityContext. cbv zeta.
  rewrite or_else_obj, patch_obj.
  rewrite !optProp_obj, (prop_Some _ _ _ Hm).
  rewrite (prop_Some _ _ _ (lookup_union_Some_l _ m _ _ Hp)).
  by rewrite !or_else_obj, patch_obj.
Qed.

(** An update without a [value] key leaves the whole mapping as it was. *)
Lemma mergeEntityContext_no_value (m es p : gmap string val) :
  m !! "value" = Some (VObj es) ->
  p !! "value" = None ->
  mergeEntityContext (VObj m) (VObj p) =
  Ok (VObj (<["value" := VObj es]> (p ∪ m))).
Proof.
  intros Hm Hp. unfold mergeEntityContext. cbv zeta.
  rewrite or_else_obj, patch_obj.
  rewrite !optProp_obj, (prop_Some _ _ _ Hm).
  assert ((p ∪ m) !! "value" = Some (VObj es)) as Hu
    by (by rewrite lookup_union_r).
  rewrite (prop_Some _ _ _ Hu).
  rewrite !or_else_obj, patch_obj.
  by rewrite (idemp_L (∪)).
Qed.

Lemma reduce_fields (f : string -> val) (l : list string)
    (acc : gmap string val) :
  reduce (fun a key => mret (lit [Spread a; Field key (f key)])) l (VObj acc) =
  Ok (VObj (fold_left (fun a key => <[key := f key]> a) l acc)).
Proof.
  revert acc. induction l as [|k l IH]; intros acc; [done|].
  cbn [reduce fold_left mret result_ret].
  rewrite bind_Ok, lit_spread_field. apply IH.
Qed.

Lemma fold_insert_notin (f : string -> val) (l : list string)
    (acc : gmap string val) (j : string) :
  j ∉ l -> fold_left (fun a key => <[key := f key]> a) l acc !! j = acc !! j.
Proof.
  revert acc. induction l as [|k l IH]; intros acc Hj; [done|].
  apply not_elem_of_cons in Hj as [Hjk Hj].
  cbn [fold_left]. rewrite IH by done. by rewrite lookup_insert_ne.
Qed.

Lemma keys_obj (pv : gmap string val) (j : string) :
  j ∈ keys (VObj pv) <-> is_Some (pv !! j).
Proof.
  unfold keys. cbn [spread]. rewrite list_elem_of_fmap. split.
  - intros ([k v] & -> & Hkv). apply elem_of_map_to_list in Hkv. eauto.
  - intros [v Hv]. exists (j, v). split; [done|]. by apply elem_of_map_to_list.
Qed.

Lemma mergeCollectionState_collection (m es p pv : gmap string val) :
  m !! "value" = Some (VObj es) ->
  p !! "value" = Some (VObj pv) ->
  exists updated,
    mergeCollectionState (VObj m) (VObj p) =
    Ok (VObj (<["value" := VObj (updated ∪ es)]> (p ∪ m))) /\
    forall j, pv !! j = None -> updated !! j = None.
Proof.
  intros Hm Hp.
  exists (fold_left (fun a key => <[key := mergedEntry (VObj es) (VObj pv) key]> a)
                    (keys (VObj pv)) ∅).
  split.
  - unfold mergeCollectionState.
    rewrite (getProp_Some _ _ _ Hp), bind_Ok. cbn [truthy negb].
    rewrite (getProp_Some _ _ _ Hm), bind_Ok.
    rewrite lit_empty, (reduce_fields (mergedEntry (VObj es) (VObj pv))), bind_Ok.
    cbn [mret result_ret]. by autorewrite with js.
  - intros j Hj. rewrite fold_insert_notin; [apply lookup_empty|].
    rewrite keys_obj, Hj. by intros [? ?].
Qed.

(** C1. A partial update whose value mapping has no key other than [k]
    leaves every entry of the collection with a key other than [k] exactly as
    it was, and returns a collection: this holds for [mergeEntityContext] and
    for [mergeCollectionState]. *)
Theorem merge_keeps_untouched_entities (C : val) (es p pv : gmap string val)
    (k : string) :
  entries C = Some es ->
  p !! "value" = Some (VObj pv) ->
  dom pv ⊆ {[ k ]} ->
  (exists R es',
     mergeEntityContext C (VObj p) = Ok R /\ entries R = Some es' /\
     forall j, j ≠ k -> es' !! j = es !! j) /\
  (exists R es',
     mergeCollectionState C (VObj p) = Ok R /\ entries R = Some es' /\
     forall j, j ≠ k -> es' !! j = es !! j).
Proof.
  open_collection m Hm. intros Hp Hdom.
  assert (Hpv : forall j, j ≠ k -> pv !! j = None).
  { intros j Hj. apply not_elem_of_dom. set_solver. }
  split.
  - exists (VObj (<["value" := VObj (pv ∪ es)]> (p ∪ m))), (pv ∪ es).
    split_and!.
    + by apply mergeEntityContext_collection.
    + apply entries_insert_value.
    + intros j Hj. apply lookup_union_r. by apply Hpv.
  - destruct (mergeCollectionState_collection m es p pv Hm Hp)
      as (updated & Heq & Hupd).
    exists (VObj (<["value" := VObj (updated ∪ es)]> (p ∪ m))), (updated ∪ es).
    split_and!.
    + done.
    + apply entries_insert_value.
    + intros j Hj. apply lookup_union_r. by apply Hupd, Hpv.
Qed.

(** [mergeContextState] keeps the old [value] when the update brings none. *)
Lemma mergeContextState_keeps_value (o p : gmap string val) :
  nullish (prop (VObj p) "value") = true ->
  mergeContextState (VObj o) (VObj p) =
  Ok (VObj (<["value" := prop (VObj o) "value"]> (p ∪ o))).
Proof.
  intros Hn. unfold mergeContextState.
  rewrite !getProp_obj, bind_Ok, Hn. cbv iota. rewrite bind_Ok.
  cbn [mret result_ret]. by rewrite lit_spread_spread_field.
Qed.

(** C2 (as amended). For contexts whose [value] is a mapping, both merges
    let every other field present in the update override the old one;
    [mergeContextState] replaces the old [value] by the update's, and it is
    [mergeEntityContext] that merges the two mappings key by key, the update
    winning. *)
Theorem context_merge_value (o p ov pv : gmap string val) :
  o !! "value" = Some (VObj ov) ->
  p !! "value" = Some (VObj pv) ->
  (exists R,
     mergeContextState (VObj o) (VObj p) = Ok (VObj R) /\
     (forall f v, f ≠ "value" -> p !! f = Some v -> R !! f = Some v) /\
     (forall f, f ≠ "value" -> p !! f = None -> R !! f = o !! f) /\
     R !! "value" = Some (VObj pv)) /\
  (exists R,
     mergeEntityContext (VObj o) (VObj p) = Ok (VObj R) /\
     (forall f v, f ≠ "value" -> p !! f = Some v -> R !! f = Some v) /\
     (forall f, f ≠ "value" -> p !! f = None -> R !! f = o !! f) /\
     R !! "value" = Some (VObj (pv ∪ ov))).
Proof.
  intros Ho Hp. split.
  - exists (<["value" := VObj pv]> (p ∪ o)). split_and!.
    + unfold mergeContextState. rewrite (getProp_Some _ _ _ Hp), bind_Ok.
      cbn [nullish mret result_ret]. rewrite bind_Ok.
      by rewrite lit_spread_spread_field.
    + intros f v Hf Hv. rewrite lookup_insert_ne by done.
      by apply lookup_union_Some_l.
    + intros f Hf Hv. rewrite lookup_insert_ne by done.
      by apply lookup_union_r.
    + apply lookup_insert_eq.
  - exists (<["value" := VObj (pv ∪ ov)]> (p ∪ o)). split_and!.
    + by apply mergeEntityContext_collection.
    + intros f v Hf Hv. rewrite lookup_insert_ne by done.
      by apply lookup_union_Some_l.
    + intros f Hf Hv. rewrite lookup_insert_ne by done.
      by apply lookup_union_r.
    + apply lookup_insert_eq.
Qed.

(** C2, the claim as written fails for [mergeContextState]: merging
    [{b:3}] into [{a:1,b:2}] gives the value [{b:3}], in which [a] is gone. *)
Lemma mergeContextState_replaces_value :
  exists R,
    mergeContextState oldContext partialContext = Ok R /\
    prop R "value" = lit [Field "b" (VNum 3)] /\
    prop R "value" ≠ lit [Field "a" (VNum 1); Field "b" (VNum 3)].
Proof.
  eexists. split_and!.
  - by vm_compute.
  - by vm_compute.
  - intros H. apply (f_equal (fun v => prop v "a")) in H.
    vm_compute in H. discriminate.
Qed.

(** The example of the merge rule, on [mergeEntityContext]. *)
Lemma mergeEntityContext_example :
  exists R,
    mergeEntityContext oldContext partialContext = Ok R /\
    prop R "value" = lit [Field "a" (VNum 1); Field "b" (VNum 3)].
Proof. eexists. split; by vm_compute. Qed.

(** ** withContextError and the fetch-all connection *)

Lemma withContextError_collection (e : gmap string val) (msg : val) :
  e !! "message" = Some msg ->
  withContextError (VObj e) None =
  Ok (failureUpdate (or_else msg (VStr "An error occurred"))).
Proof.
  intros He. unfold withContextError. cbn [from_option truthy].
  cbv iota. cbn [mret result_ret]. rewrite bind_Ok.
  by rewrite (getProp_Some _ _ _ He), bind_Ok.
Qed.

Lemma mergeEntityContext_failure (m es : gmap string val) (msg : val) :
  m !! "value" = Some (VObj es) ->
  exists R,
    mergeEntityContext (VObj m) (failureUpdate msg) = Ok (VObj R) /\
    R !! "error" = Some msg /\
    R !! "loading" = Some (VBool false) /\
    R !! "value" = Some (VObj es).
Proof.
  intros Hm. unfold failureUpdate, lit. cbn [fold_left add_part].
  eexists. split_and!.
  - by apply (mergeEntityContext_collection m es _ ∅).
  - rewrite lookup_insert_ne by done. by apply lookup_union_Some_l.
  - rewrite lookup_insert_ne by done. by apply lookup_union_Some_l.
  - rewrite lookup_insert_eq. by rewrite (left_id_L ∅ (∪)).
Qed.

(** C4. Merging the result of [withContextError] for a fetch-all failure
    carrying the message ["boom"] into a collection returns (nothing is
    thrown) a collection whose [error] is ["boom"], whose [loading] is [false]
    and whose mapping is the one it had; the same holds for the [todos] slice
    that the fetch-all connection of the todos state writes. *)
Theorem fetch_all_failure_recorded (C : val) (es e : gmap string val) :
  entries C = Some es ->
  e !! "message" = Some (VStr "boom") ->
  exists P,
    withContextError (VObj e) None = Ok P /\
    (exists R,
       mergeEntityContext C P = Ok R /\
       prop R "error" = VStr "boom" /\
       prop R "loading" = VBool false /\
       entries R = Some es) /\
    (forall s, s !! "todos" = Some C ->
       exists S' T,
         connect "todos" fetchTodosProject (VObj s) P = Ok S' /\
         prop S' "todos" = T /\
         prop T "error" = VStr "boom" /\
         prop T "loading" = VBool false /\
         entries T = Some es).
Proof.
  open_collection m Hm. intros He.
  exists (failureUpdate (VStr "boom")).
  destruct (mergeEntityContext_failure m es (VStr "boom") Hm)
    as (R & HR & Herr & Hload & Hval).
  split_and!.
  - by rewrite (withContextError_collection _ _ He).
  - exists (VObj R). split_and!; [done|by apply prop_Some..|].
    cbn [entries]. by rewrite Hval.
  - intros s Hs.
    exists (VObj (<["todos" :=
               VObj (<["error" := VStr "boom"]>
                       (<["loading" := VBool false]>
                          (<["value" := VObj es]> s)))]> s)).
    eexists. split_and!.
    + unfold connect, fetchTodosProject.
      rewrite (getProp_Some _ _ _ Hs), bind_Ok, HR, bind_Ok.
      rewrite (getProp_Some _ _ _ Hval), bind_Ok.
      assert (getProp (failureUpdate (VStr "boom")) "loading" = Ok (VBool false))
        as -> by done.
      assert (getProp (failureUpdate (VStr "boom")) "error" = Ok (VStr "boom"))
        as -> by done.
      rewrite !bind_Ok. cbn [mret result_ret]. by autorewrite with js.
    + apply prop_Some, lookup_insert_eq.
    + apply prop_Some, lookup_insert_eq.
    + apply prop_Some. rewrite lookup_insert_ne by done. apply lookup_insert_eq.
    + cbn [entries]. rewrite !lookup_insert_ne by done.
      by rewrite lookup_insert_eq.
Qed.

(** ** withLoadingEmission *)

Lemma endWith_completed (v : val) (xs : list val) (rest : observable) :
  endWith v ((Next <$> xs) ++ Complete :: rest)%list =
  ((Next <$> xs) ++ [Next v; Complete])%list.
Proof. induction xs as [|x xs IH]; [done|]. cbn. by rewrite IH. Qed.

Lemma endWith_errored (v e : val) (xs : list val) (rest : observable) :
  endWith v ((Next <$> xs) ++ Error e :: rest)%list =
  ((Next <$> xs) ++ [Error e])%list.
Proof. induction xs as [|x xs IH]; [done|]. cbn. by rewrite IH. Qed.

(** A source that emits [xs] and completes is bracketed by the two markers. *)
Lemma withLoadingEmission_of (property : option string) (xs : list val) :
  withLoadingEmission property (of_ xs) =
  (Next (lit [Field (default "loading" property) (VBool true)])
     :: (Next <$> xs)
     ++ [Next (lit [Field (default "loading" property) (VBool false)]);
         Complete])%list.
Proof.
  unfold withLoadingEmission, startWith, of_. cbv zeta. cbn [endWith].
  by rewrite endWith_completed.
Qed.

(** A source that fails is not closed by the [false] marker: the error is the
    last notification. *)
Lemma withLoadingEmission_errored (property : option string) (xs : list val)
    (e : val) :
  withLoadingEmission property ((Next <$> xs) ++ [Error e])%list =
  (Next (lit [Field (default "loading" property) (VBool true)])
     :: (Next <$> xs) ++ [Error e])%list.
Proof.
  unfold withLoadingEmission, startWith. cbv zeta. cbn [endWith].
  by rewrite endWith_errored.
Qed.

(** C3. Subscribing to [withLoadingEmission()] applied to a producer that
    emits [x] and completes delivers [{loading: true}], [x],
    [{loading: false}] in that order and then completes. *)
Theorem withLoadingEmission_bracket (x : val) :
  withLoadingEmission None (of_ [x]) =
    [Next (VObj {[ "loading" := VBool true ]}); Next x;
     Next (VObj {[ "loading" := VBool false ]}); Complete] /\
  values (withLoadingEmission None (of_ [x])) =
    [VObj {[ "loading" := VBool true ]}; x; VObj {[ "loading" := VBool false ]}].
Proof. by rewrite withLoadingEmission_of. Qed.

(** ** The fetch-all stream under exhaustMap *)



(** The scenario of the claim: two dispatches before the first settles. *)
Corollary fetchTodos_dispatched_twice (v1 v2 : val) :
  listCalls (exhaustMap [OuterNext v1; OuterNext v2]) = 1.
Proof. reflexivity. Qed.

(** ** The tracked dispatcher *)

(** C6. When the transform registered for an action throws on the payload,
    the dispatcher returns normally and the cause reaches the error handler,
    but [dispatch] has already caught it: the [catch] of the dispatcher never
    runs, the last value of the action's error signal is the [null] written
    before the call, and the loading signal stays [true]. *)
Theorem dispatcher_transform_throws
    (transformsMap : gmap string (val -> result val)) (errorHandler : bool)
    (action : string) (payload cause : val) (f : val -> result val)
    (w : world) :
  transformsMap !! action = Some f ->
  f payload = Throw cause ->
  typeofObject payload = false ->
  exists w' t,
    dispatcher transformsMap errorHandler action [payload] w = (Ok tt, w') /\
    handled w' = (handled w ++ if errorHandler then [cause] else [])%list /\
    stateMap w' !! action = Some t /\
    current (error_ t) = Some VNull /\
    current (loading_ t) = Some (VBool true) /\
    (sent <$> subjectMap w' !! action) =
      Some (default [] (sent <$> subjectMap w !! action)).
Proof.
  intros Hf Hthrow Hobj. destruct w as [sm sj hd mt].
  unfold dispatcher. cbn [last]. rewrite Hobj. cbn [head default from_option id].
  assert (getProp (lit []) "silent" = Ok VUndef) as -> by done.
  cbv [dispatch transformed getOrCreateState loadingNext completeNext errorNext
       handleError setStateMap setSubjectMap tryCatch when lift mbind mret
       act_bind act_ret truthy negb stateMap subjectMap handled microtasks].
  rewrite Hf, Hthrow.
  destruct (sm !! action) as [t0|] eqn:Hsm, (sj !! action) as [s0|] eqn:Hsj,
    errorHandler;
    (eexists _, _; split; [reflexivity|]);
    (split; [by rewrite ?app_nil_r|]);
    (split; [rewrite !lookup_alter_eq, ?lookup_insert_eq, ?Hsm; reflexivity|]);
    (split; [apply last_snoc|]);
    (split; [apply last_snoc|]);
    by rewrite ?lookup_insert_eq, ?Hsj.
Qed.

(** With the tracking subscription of [getEventEmitter] installed the outcome
    is the same: the subject is never sent the payload. *)
Lemma dispatcher_transform_throws_tracked :
  exists w t s,
    (getEventEmitter "fetchTodo";;
     dispatcher throwingTransforms true "fetchTodo" [VStr "42"]) emptyWorld
      = (Ok tt, w) /\
    handled w = [boom] /\
    stateMap w !! "fetchTodo" = Some t /\
    error_ t = [VNull] /\
    loading_ t = [VBool false; VBool true] /\
    subjectMap w !! "fetchTodo" = Some s /\
    tracked s = true /\ sent s = [].
Proof. eexists _, _, _. split_and!; by vm_compute. Qed.

(** Without a throwing transform the tracked subject settles the action. *)
Lemma dispatcher_settles :
  exists w t,
    (getEventEmitter "fetchTodo";;
     dispatcher ∅ true "fetchTodo" [VStr "42"];;
     settle "fetchTodo") emptyWorld = (Ok tt, w) /\
    stateMap w !! "fetchTodo" = Some t /\
    current (loading_ t) = Some (VBool false) /\
    current (complete_ t) = Some (VBool true) /\
    current (error_ t) = Some VNull /\
    handled w = [].
Proof. eexists _, _. split_and!; by vm_compute. Qed.

(** ** Instances on the sample data *)

(** [otherResponse] is what a successful fetch of the todo ["2"] is wrapped
    into. *)
Lemma withContextResponse_other :
  withContextResponse (lit [Field "id" (VStr "2")]) (Some "2") =
  VObj otherResponse.
Proof. by vm_compute. Qed.

Lemma merge_keeps_untouched_entities_witness :
  entries sampleCollection = Some sampleEntries /\
  otherResponse !! "value" = Some (VObj otherEntries) /\
  dom otherEntries ⊆ {[ "2" ]} /\
  (exists R es',
     mergeEntityContext sampleCollection (VObj otherResponse) = Ok R /\
     entries R = Some es' /\
     forall j, j ≠ "2" -> es' !! j = sampleEntries !! j) /\
  (exists R es',
     mergeCollectionState sampleCollection (VObj otherResponse) = Ok R /\
     entries R = Some es' /\
     forall j, j ≠ "2" -> es' !! j = sampleEntries !! j).
Proof.
  assert (H1 : entries sampleCollection = Some sampleEntries)
    by (vm_compute; reflexivity).
  assert (H2 : otherResponse !! "value" = Some (VObj otherEntries))
    by (vm_compute; reflexivity).
  assert (H3 : dom otherEntries ⊆ {[ "2" ]}).
  { unfold otherEntries. rewrite dom_singleton_L. reflexivity. }
  split; [exact H1|]. split; [exact H2|]. split; [exact H3|].
  exact (merge_keeps_untouched_entities sampleCollection sampleEntries
           otherResponse otherEntries "2" H1 H2 H3).
Defined.

Lemma context_merge_value_witness :
  exists o p ov pv,
    oldContext = VObj o /\ partialContext = VObj p /\
    o !! "value" = Some (VObj ov) /\ p !! "value" = Some (VObj pv) /\
    ov = {[ "a" := VNum 1; "b" := VNum 2 ]} /\ pv = {[ "b" := VNum 3 ]} /\
    (exists R,
       mergeContextState (VObj o) (VObj p) = Ok (VObj R) /\
       (forall f v, f ≠ "value" -> p !! f = Some v -> R !! f = Some v) /\
       (forall f, f ≠ "value" -> p !! f = None -> R !! f = o !! f) /\
       R !! "value" = Some (VObj pv)) /\
    (exists R,
       mergeEntityContext (VObj o) (VObj p) = Ok (VObj R) /\
       (forall f v, f ≠ "value" -> p !! f = Some v -> R !! f = Some v) /\
       (forall f, f ≠ "value" -> p !! f = None -> R !! f = o !! f) /\
       R !! "value" = Some (VObj (pv ∪ ov))).
Proof.
  exists {[ "value" := VObj {[ "a" := VNum 1; "b" := VNum 2 ]};
            "loading" := VBool false ]},
         {[ "value" := VObj {[ "b" := VNum 3 ]} ]},
         {[ "a" := VNum 1; "b" := VNum 2 ]}, {[ "b" := VNum 3 ]}.
  split; [vm_compute; reflexivity|]. split; [vm_compute; reflexivity|].
  split; [vm_compute; reflexivity|]. split; [vm_compute; reflexivity|].
  split; [reflexivity|]. split; [reflexivity|].
  apply context_merge_value; vm_compute; reflexivity.
Defined.

Lemma fetch_all_failure_recorded_witness :
  entries sampleCollection = Some sampleEntries /\
  ({[ "message" := VStr "boom" ]} : gmap string val) !! "message"
    = Some (VStr "boom") /\
  exists P,
    withContextError (VObj {[ "message" := VStr "boom" ]}) None = Ok P /\
    (exists R,
       mergeEntityContext sampleCollection P = Ok R /\
       prop R "error" = VStr "boom" /\
       prop R "loading" = VBool false /\
       entries R = Some sampleEntries) /\
    (forall s, s !! "todos" = Some sampleCollection ->
       exists S' T,
         connect "todos" fetchTodosProject (VObj s) P = Ok S' /\
         prop S' "todos" = T /\
         prop T "error" = VStr "boom" /\
         prop T "loading" = VBool false /\
         entries T = Some sampleEntries).
Proof.
  split; [vm_compute; reflexivity|]. split; [vm_compute; reflexivity|].
  apply (fetch_all_failure_recorded sampleCollection sampleEntries);
    vm_compute; reflexivity.
Defined.

Lemma updateEntity_absent_throws_witness :
  entries createInitialEntityState = Some ∅ /\
  (∅ : gmap string val) !! "1" = None /\
  updateEntity createInitialEntityState "1" sampleTodo = Throw TypeError.
Proof.
  split; [vm_compute; reflexivity|]. split; [vm_compute; reflexivity|].
  apply (updateEntity_absent_throws createInitialEntityState "1" sampleTodo ∅);
    vm_compute; reflexivity.
Defined.

Lemma removeEntity_idempotent_witness :
  entries sampleCollection = Some sampleEntries /\
  exists C',
    removeEntity sampleCollection "1" = Ok C' /\
    removeEntity C' "1" = Ok C' /\
    entries C' = Some (delete "1" sampleEntries) /\
    (sampleEntries !! "1" = None -> C' = sampleCollection).
Proof.
  split; [vm_compute; reflexivity|].
  apply (removeEntity_idempotent sampleCollection "1" sampleEntries).
  vm_compute; reflexivity.
Defined.

Lemma updateCollection_fresh_entries_witness :
  Forall (fun e => nullish e = false) [sampleTodo] /\
  exists m,
    updateCollection [sampleTodo] None = Ok (VObj m) /\
    (forall k entry, m !! k = Some entry ->
       exists e, e ∈ [sampleTodo] /\ idOf None e = k /\
                 prop entry "value" = e /\
                 prop entry "loading" = VBool false /\
                 prop entry "error" = VBool false) /\
    (forall e, e ∈ [sampleTodo] -> is_Some (m !! idOf None e)) /\
    (NoDup (idOf None <$> [sampleTodo]) ->
       size m = length [sampleTodo] /\
       forall e, e ∈ [sampleTodo] -> m !! idOf None e = Some (freshEntry e)).
Proof.
  assert (H : Forall (fun e => nullish e = false) [sampleTodo])
    by (repeat constructor).
  split; [exact H|].
  exact (updateCollection_fresh_entries [sampleTodo] None H).
Defined.

Lemma setEntityLoading_absent_witness :
  entries sampleCollection = Some sampleEntries /\
  sampleEntries !! "2" = None /\
  exists C' entry,
    setEntityLoading sampleCollection "2" = Ok C' /\
    entries C' = Some (<["2" := VObj entry]> sampleEntries) /\
    entry = {[ "loading" := VBool true; "error" := VBool false ]} /\
    entry !! "value" = None /\
    selectEntity "2" C' = VUndef.
Proof.
  split; [vm_compute; reflexivity|]. split; [vm_compute; reflexivity|].
  apply (setEntityLoading_absent sampleCollection "2" sampleEntries);
    vm_compute; reflexivity.
Defined.

Lemma dispatcher_transform_throws_witness :
  throwingTransforms !! "fetchTodo" = Some rejecting /\
  rejecting (VStr "42") = Throw boom /\
  typeofObject (VStr "42") = false /\
  exists w' t,
    dispatcher throwingTransforms true "fetchTodo" [VStr "42"] emptyWorld
      = (Ok tt, w') /\
    handled w' = (handled emptyWorld ++ [boom])%list /\
    stateMap w' !! "fetchTodo" = Some t /\
    current (error_ t) = Some VNull /\
    current (loading_ t) = Some (VBool true) /\
    (sent <$> subjectMap w' !! "fetchTodo") =
      Some (default [] (sent <$> subjectMap emptyWorld !! "fetchTodo")).
Proof.
  assert (H1 : throwingTransforms !! "fetchTodo" = Some rejecting)
    by (vm_compute; reflexivity).
  split; [exact H1|]. split; [reflexivity|]. split; [reflexivity|].
  exact (dispatcher_transform_throws throwingTransforms true "fetchTodo"
           (VStr "42") boom rejecting emptyWorld H1 eq_refl eq_refl).
Defined.


(** * Further properties of the helpers *)

(** ** Shapes used below *)

Lemma lit_spread_fields2 (s : val) (k1 k2 : string) (v1 v2 : val) :
  lit [Spread s; Field k1 v1; Field k2 v2] =
  VObj (<[k2 := v2]> (<[k1 := v1]> (spread s))).
Proof. unfold lit; cbn [fold_left add_part]. by rewrite (right_id_L ∅ (∪)). Qed.

Lemma lit_field (k : string) (v : val) : lit [Field k v] = VObj {[ k := v ]}.
Proof. reflexivity. Qed.

#[local] Hint Rewrite lit_spread_fields2 : js.

(** Two chains of insertions that agree at every key. *)
Ltac solve_inserts :=
  apply map_eq; intros ?; rewrite !lookup_insert;
  repeat case_decide; congruence.

(** Reading a property other than [length] sees exactly what a spread
    copies. *)
Lemma optProp_spread (e : val) (k : string) :
  k ≠ "length" -> optProp e k = default VUndef (spread e !! k).
Proof.
  intros Hk. destruct e as [| | | |s|m]; try done.
  unfold optProp. cbn [nullish prop spread].
  by destruct (String.eqb_spec k "length").
Qed.

Lemma setEntityLoading_collection (m es : gmap string val) (k : string) :
  m !! "value" = Some (VObj es) ->
  setEntityLoading (VObj m) k =
  Ok (VObj (<["value" :=
              VObj (<[k := VObj (<["error" := VBool false]>
                                   (<["loading" := VBool true]>
                                      (spread (prop (VObj es) k))))]> es)]> m)).
Proof.
  intros Hv. unfold setEntityLoading.
  rewrite (getProp_Some _ _ _ Hv), bind_Ok, getProp_obj, bind_Ok.
  cbn [mret result_ret]. by autorewrite with js.
Qed.

Lemma setEntityError_collection (m es : gmap string val) (k : string) :
  m !! "value" = Some (VObj es) ->
  setEntityError (VObj m) k =
  Ok (VObj (<["value" :=
              VObj (<[k := VObj (<["loading" := VBool false]>
                                   (<["error" := VBool true]>
                                      (spread (prop (VObj es) k))))]> es)]> m)).
Proof.
  intros Hv. unfold setEntityError.
  rewrite (getProp_Some _ _ _ Hv), bind_Ok, getProp_obj, bind_Ok.
  cbn [mret result_ret]. by autorewrite with js.
Qed.

Lemma selectEntity_collection (m es : gmap string val) (j : string) :
  m !! "value" = Some (VObj es) ->
  selectEntity j (VObj m) = optProp (prop (VObj es) j) "value".
Proof.
  intros Hv. unfold selectEntity.
  by rewrite !optProp_obj, (prop_Some _ _ _ Hv).
Qed.

(** ** Collection-level flags *)

(** The collection-level and the context-level flag helpers are the same
    functions; the flag written last wins, so an error recorded after a
    loading marker is the error alone (and conversely), and writing a flag
    twice is writing it once. *)
Lemma collection_flags_last_write_wins (C : val) :
  setContextLoading C = setCollectionLoading C /\
  setContextError C = setCollectionError C /\
  setCollectionError (setCollectionLoading C) = setCollectionError C /\
  setCollectionLoading (setCollectionError C) = setCollectionLoading C /\
  setCollectionLoading (setCollectionLoading C) = setCollectionLoading C /\
  setCollectionError (setCollectionError C) = setCollectionError C.
Proof.
  unfold setContextLoading, setContextError, setCollectionLoading,
    setCollectionError.
  autorewrite with js. cbn [spread]. split_and!; f_equal; solve_inserts.
Qed.

Lemma prop_insert_eq (m : gmap string val) (k : string) (v : val) :
  prop (VObj (<[k := v]> m)) k = v.
Proof. apply prop_Some, lookup_insert_eq. Qed.

Lemma prop_insert_ne (m : gmap string val) (k j : string) (v : val) :
  k ≠ j -> prop (VObj (<[k := v]> m)) j = prop (VObj m) j.
Proof. intros H. cbn [prop]. by rewrite lookup_insert_ne. Qed.

(** ** Entity-level flags *)

Lemma loading_over_error (a : gmap string val) (l1 e1 l2 e2 : val) :
  <["error" := e2]> (<["loading" := l2]>
    (<["loading" := l1]> (<["error" := e1]> a))) =
  <["error" := e2]> (<["loading" := l2]> a).
Proof. solve_inserts. Qed.

Lemma error_over_loading (a : gmap string val) (l1 e1 l2 e2 : val) :
  <["loading" := l2]> (<["error" := e2]>
    (<["error" := e1]> (<["loading" := l1]> a))) =
  <["loading" := l2]> (<["error" := e2]> a).
Proof. solve_inserts. Qed.

(** On a collection the entity-level flag helpers never throw, and the
    one applied last decides: marking an entity as loading after an error
    (or as failed after a loading marker) gives what marking it alone gives. *)
Lemma entity_flags_last_write_wins (C : val) (k : string)
    (es : gmap string val) :
  entries C = Some es ->
  (exists C1, setEntityError C k = Ok C1 /\
              setEntityLoading C1 k = setEntityLoading C k) /\
  (exists C2, setEntityLoading C k = Ok C2 /\
              setEntityError C2 k = setEntityError C k).
Proof.
  open_collection m Hv. split.
  - eexists. split; [by apply setEntityError_collection|].
    rewrite (setEntityLoading_collection _ _ _ (lookup_insert_eq _ _ _)).
    rewrite (setEntityLoading_collection _ _ _ Hv).
    rewrite prop_insert_eq, !insert_insert_eq. cbn [spread].
    by rewrite loading_over_error.
  - eexists. split; [by apply setEntityLoading_collection|].
    rewrite (setEntityError_collection _ _ _ (lookup_insert_eq _ _ _)).
    rewrite (setEntityError_collection _ _ _ Hv).
    rewrite prop_insert_eq, !insert_insert_eq. cbn [spread].
    by rewrite error_over_loading.
Qed.

Lemma optProp_flagged (e : val) (f1 f2 f : string) (v1 v2 : val) :
  f ≠ "length" -> f1 ≠ f -> f2 ≠ f ->
  optProp (VObj (<[f1 := v1]> (<[f2 := v2]> (spread e)))) f = optProp e f.
Proof.
  intros Hf H1 H2. rewrite optProp_obj, (optProp_spread e) by done.
  cbn [prop]. by rewrite !lookup_insert_ne.
Qed.

(** X1. The flag helpers leave what [selectEntity] reads as it was, for the
    entity they mark and for every other one. *)
Theorem entity_flags_keep_values (C : val) (k j : string)
    (es : gmap string val) :
  entries C = Some es ->
  (exists C1, setEntityLoading C k = Ok C1 /\
              selectEntity j C1 = selectEntity j C) /\
  (exists C2, setEntityError C k = Ok C2 /\
              selectEntity j C2 = selectEntity j C).
Proof.
  open_collection m Hv. split.
  - eexists. split; [by apply setEntityLoading_collection|].
    rewrite (selectEntity_collection _ _ _ (lookup_insert_eq _ _ _)),
      (selectEntity_collection _ _ _ Hv).
    destruct (decide (k = j)) as [->|Hkj].
    + by rewrite prop_insert_eq, optProp_flagged.
    + by rewrite prop_insert_ne.
  - eexists. split; [by apply setEntityError_collection|].
    rewrite (selectEntity_collection _ _ _ (lookup_insert_eq _ _ _)),
      (selectEntity_collection _ _ _ Hv).
    destruct (decide (k = j)) as [->|Hkj].
    + by rewrite prop_insert_eq, optProp_flagged.
    + by rewrite prop_insert_ne.
Qed.

Lemma selectEntityWithContext_collection (m es : gmap string val) (k : string) :
  m !! "value" = Some (VObj es) ->
  selectEntityWithContext k (VObj m) =
  VObj {[ "value" := optProp (prop (VObj es) k) "value";
          "loading" := or_else (optProp (prop (VObj es) k) "loading") (VBool false);
          "error" := optProp (prop (VObj es) k) "error" ]}.
Proof.
  intros Hv. unfold selectEntityWithContext. cbv zeta.
  rewrite !optProp_obj, (prop_Some _ _ _ Hv).
  unfold lit. cbn [fold_left add_part]. f_equal; solve_inserts.
Qed.

(** X2. After [setEntityLoading] the selector with context reads the
    entity's value with [loading: true, error: false]; after [setEntityError]
    it reads it with [loading: false, error: true]. *)
Theorem selectEntityWithContext_after_flags (C : val) (k : string)
    (es : gmap string val) :
  entries C = Some es ->
  (exists C1, setEntityLoading C k = Ok C1 /\
     selectEntityWithContext k C1 =
       VObj {[ "value" := selectEntity k C; "loading" := VBool true;
               "error" := VBool false ]}) /\
  (exists C2, setEntityError C k = Ok C2 /\
     selectEntityWithContext k C2 =
       VObj {[ "value" := selectEntity k C; "loading" := VBool false;
               "error" := VBool true ]}).
Proof.
  open_collection m Hv. split.
  - eexists. split; [by apply setEntityLoading_collection|].
    rewrite (selectEntityWithContext_collection _ _ _ (lookup_insert_eq _ _ _)).
    rewrite (selectEntity_collection _ _ _ Hv), prop_insert_eq.
    rewrite optProp_flagged by done.
    rewrite !optProp_obj, prop_insert_eq.
    rewrite prop_insert_ne, prop_insert_eq by done. reflexivity.
  - eexists. split; [by apply setEntityError_collection|].
    rewrite (selectEntityWithContext_collection _ _ _ (lookup_insert_eq _ _ _)).
    rewrite (selectEntity_collection _ _ _ Hv), prop_insert_eq.
    rewrite optProp_flagged by done.
    rewrite !optProp_obj, prop_insert_eq.
    rewrite prop_insert_ne, prop_insert_eq by done. reflexivity.
Qed.

(** Whatever the state, [selectEntityWithContext] returns an object: for an
    id the collection does not hold, or a state without mapping, it is
    [{value: undefined, loading: false, error: undefined}]. *)
Lemma selectEntityWithContext_absent (state : val) (k : string) :
  optProp (optProp state "value") k = VUndef ->
  selectEntityWithContext k state =
    VObj {[ "value" := VUndef; "loading" := VBool false; "error" := VUndef ]}
  /\ selectEntity k state = VUndef.
Proof.
  intros H. unfold selectEntityWithContext, selectEntity. rewrite H.
  by split.
Qed.

(** ** updateEntity and removeEntity *)

Lemma updateEntity_collection (m es : gmap string val) (k : string)
    (P e : val) :
  m !! "value" = Some (VObj es) ->
  es !! k = Some e ->
  nullish e = false ->
  updateEntity (VObj m) k P =
  Ok (VObj (<["value" :=
              VObj (<[k := VObj (<["value" :=
                                   VObj (spread P ∪ spread (prop e "value"))]>
                                   (spread e))]> es)]> m)).
Proof.
  intros Hv Hk He. unfold updateEntity.
  rewrite (getProp_Some _ _ _ Hv), bind_Ok, (getProp_Some _ _ _ Hk), bind_Ok.
  unfold getProp. rewrite He, bind_Ok. cbn [mret result_ret].
  by autorewrite with js.
Qed.

(** X3. Updating an entity with the empty object returns the collection
    unchanged, provided the entity is an object whose [value] is an object. *)
Theorem updateEntity_empty_update (C : val) (k : string)
    (es eo ov : gmap string val) :
  entries C = Some es ->
  es !! k = Some (VObj eo) ->
  eo !! "value" = Some (VObj ov) ->
  updateEntity C k (lit []) = Ok C.
Proof.
  open_collection m Hv. intros Hk Ho.
  rewrite (updateEntity_collection _ _ _ _ _ Hv Hk) by done.
  rewrite (prop_Some _ _ _ Ho), lit_empty. cbn [spread].
  rewrite (left_id_L ∅ (∪)).
  by rewrite (insert_id eo), (insert_id es), (insert_id m).
Qed.

(** X4. Two updates of the same entity in a row are one update with the
    second object spread over the first. *)
Theorem updateEntity_twice (C : val) (k : string) (P Q e : val)
    (es : gmap string val) :
  entries C = Some es ->
  es !! k = Some e ->
  nullish e = false ->
  exists C1,
    updateEntity C k P = Ok C1 /\
    updateEntity C1 k Q = updateEntity C k (lit [Spread P; Spread Q]).
Proof.
  open_collection m Hv. intros Hk He.
  eexists. split; [by apply updateEntity_collection|].
  rewrite (updateEntity_collection _ _ _ Q _
             (lookup_insert_eq _ _ _) (lookup_insert_eq _ _ _)) by done.
  rewrite (updateEntity_collection _ _ _ _ _ Hv Hk) by done.
  rewrite prop_insert_eq, lit_spread_spread. cbn [spread].
  by rewrite !insert_insert_eq, (assoc_L (∪)).
Qed.

Lemma removeEntity_select (m es : gmap string val) (k j : string) :
  m !! "value" = Some (VObj es) ->
  selectEntity j (VObj (<["value" := VObj (delete k es)]> m)) =
  if decide (k = j) then VUndef else selectEntity j (VObj m).
Proof.
  intros Hv.
  rewrite (selectEntity_collection _ _ _ (lookup_insert_eq _ _ _)),
    (selectEntity_collection _ _ _ Hv).
  cbn [prop]. case_decide as Hkj.
  - subst. by rewrite lookup_delete_eq.
  - by rewrite lookup_delete_ne.
Qed.

(** X5. After [removeEntity] the selector reads [undefined] for the removed
    id and what it read before for every other id. *)
Theorem removeEntity_then_select (C : val) (k : string) (es : gmap string val) :
  entries C = Some es ->
  exists C',
    removeEntity C k = Ok C' /\
    selectEntity k C' = VUndef /\
    forall j, j ≠ k -> selectEntity j C' = selectEntity j C.
Proof.
  open_collection m Hv. eexists. split; [by apply removeEntity_collection|].
  split.
  - rewrite (removeEntity_select _ _ _ _ Hv). by case_decide.
  - intros j Hj. rewrite (removeEntity_select _ _ _ _ Hv).
    case_decide; congruence.
Qed.

(** Removing an entity that [setEntityLoading] or [setEntityError] has
    just created gives back the collection they were applied to. *)
Lemma removeEntity_undoes_creation (C : val) (k : string)
    (es : gmap string val) :
  entries C = Some es ->
  es !! k = None ->
  (exists C1, setEntityLoading C k = Ok C1 /\ removeEntity C1 k = Ok C) /\
  (exists C2, setEntityError C k = Ok C2 /\ removeEntity C2 k = Ok C).
Proof.
  open_collection m Hv. intros Hk. split.
  - eexists. split; [by apply setEntityLoading_collection|].
    rewrite (removeEntity_collection _ _ _ (lookup_insert_eq _ _ _)).
    rewrite delete_insert_id, insert_insert_eq by done. by rewrite insert_id.
  - eexists. split; [by apply setEntityError_collection|].
    rewrite (removeEntity_collection _ _ _ (lookup_insert_eq _ _ _)).
    rewrite delete_insert_id, insert_insert_eq by done. by rewrite insert_id.
Qed.

(** X6. On a state whose [value] is missing, [undefined] or [null] the four
    entity helpers raise a [TypeError]. *)
Theorem entity_helpers_need_mapping (m : gmap string val) (k : string)
    (P : val) :
  nullish (prop (VObj m) "value") = true ->
  setEntityLoading (VObj m) k = Throw TypeError /\
  setEntityError (VObj m) k = Throw TypeError /\
  updateEntity (VObj m) k P = Throw TypeError /\
  removeEntity (VObj m) k = Throw TypeError.
Proof.
  intros Hn.
  unfold setEntityLoading, setEntityError, updateEntity, removeEntity.
  rewrite !getProp_obj, !bind_Ok. unfold getProp. rewrite Hn.
  by split_and!.
Qed.

(** ** updateCollection and withTrackedEntityCollection *)

Lemma reduce_collect_throws (idKey : option string) (entities : list val)
    (acc : gmap string val) :
  Exists (fun e => nullish e = true) entities ->
  reduce (collect (default "id" idKey)) entities (VObj acc) = Throw TypeError.
Proof.
  intros Hex. revert acc.
  induction entities as [|e l IH]; intros acc; [by apply Exists_nil in Hex|].
  cbn [reduce]. destruct (nullish e) eqn:He.
  - unfold collect, getProp. by rewrite He.
  - rewrite collect_step, bind_Ok by done. apply IH.
    apply Exists_cons in Hex as [Hex|Hex]; [congruence|done].
Qed.

(** X7. [updateCollection] raises a [TypeError] as soon as one item of the
    list is [undefined] or [null], wherever it stands, and returns a mapping
    otherwise. *)
Theorem updateCollection_nullish_item (entities : list val)
    (idKey : option string) :
  (Exists (fun e => nullish e = true) entities ->
   updateCollection entities idKey = Throw TypeError) /\
  (Forall (fun e => nullish e = false) entities ->
   updateCollection entities idKey = Ok (VObj (filed idKey entities ∅))).
Proof.
  unfold updateCollection. rewrite lit_empty. split.
  - apply reduce_collect_throws.
  - apply updateCollection_filed.
Qed.

Lemma filed_lookup_NoDup (idKey : option string) (entities : list val)
    (e : val) :
  NoDup (idOf idKey <$> entities) ->
  e ∈ entities ->
  filed idKey entities ∅ !! idOf idKey e = Some (freshEntry e).
Proof.
  intros Hnd He. rewrite filed_lookup.
  destruct (last _) as [e'|] eqn:E.
  - apply last_Some_elem_of, list_elem_of_filter in E as [Hid He'].
    by rewrite (NoDup_fmap_eq _ _ _ _ Hnd He' He Hid).
  - apply last_None in E. by apply (filter_nil_not_elem_of _ _ e) in E.
Qed.

Lemma withTrackedEntityCollection_emission (idKey : option string)
    (entities : list val + val) (rest : list (item (list val + val))) :
  Forall (fun e => nullish e = false) (asArray entities) ->
  withTrackedEntityCollection idKey (Value entities :: rest) =
  Next (VObj {[ "loading" := VBool true ]})
    :: Next (lit [Field "value" (VObj (filed idKey (asArray entities) ∅));
                  Field "error" (VBool false)])
    :: endWith (VObj {[ "loading" := VBool false ]})
         (rxMap (fun entities =>
                   value ← updateCollection (asArray entities) idKey;
                   mret (lit [Field "value" value; Field "error" (VBool false)]))
                rest).
Proof.
  intros Hall. unfold withTrackedEntityCollection, withLoadingEmission, startWith.
  cbv zeta. cbn [rxMap endWith].
  unfold updateCollection at 1. rewrite lit_empty, updateCollection_filed by done.
  by rewrite bind_Ok.
Qed.

(** X8. For a request that answers with a list of entities, or with a
    single entity, and completes, [withTrackedEntityCollection] delivers the
    [true] marker, one collection update and the [false] marker; when the ids
    are pairwise distinct, [selectEntity] reads every entity back from the
    update. *)
Theorem withTrackedEntityCollection_round_trip (idKey : option string)
    (entities : list val + val) :
  Forall (fun e => nullish e = false) (asArray entities) ->
  NoDup (idOf idKey <$> asArray entities) ->
  exists update,
    withTrackedEntityCollection idKey [Value entities; End] =
      [Next (VObj {[ "loading" := VBool true ]}); Next update;
       Next (VObj {[ "loading" := VBool false ]}); Complete] /\
    prop update "error" = VBool false /\
    prop update "loading" = VUndef /\
    forall e, e ∈ asArray entities -> selectEntity (idOf idKey e) update = e.
Proof.
  intros Hall Hnd. eexists. split_and!.
  - by rewrite withTrackedEntityCollection_emission.
  - done.
  - done.
  - intros e He. unfold lit. cbn [fold_left add_part].
    rewrite (selectEntity_collection _ (filed idKey (asArray entities) ∅)).
    + rewrite (prop_Some _ _ _ (filed_lookup_NoDup _ _ _ Hnd He)).
      exact (proj1 (freshEntry_fields e)).
    + rewrite lookup_insert_ne by done. apply lookup_insert_eq.
Qed.

(** X9. When the request fails, or holds an item that is [undefined] or
    [null], the subscriber of [withTrackedEntityCollection] gets the [true]
    marker and then the error: no update and no [false] marker follow. *)
Theorem withTrackedEntityCollection_failure (idKey : option string)
    (err : val) (entities : list val + val)
    (rest : list (item (list val + val))) :
  withTrackedEntityCollection idKey (Failure err :: rest) =
    [Next (VObj {[ "loading" := VBool true ]}); Error err] /\
  (Exists (fun e => nullish e = true) (asArray entities) ->
   withTrackedEntityCollection idKey (Value entities :: rest) =
     [Next (VObj {[ "loading" := VBool true ]}); Error TypeError]).
Proof.
  split; [done|]. intros Hex.
  unfold withTrackedEntityCollection, withLoadingEmission, startWith.
  cbv zeta. cbn [rxMap endWith].
  unfold updateCollection. rewrite lit_empty, reduce_collect_throws by done.
  reflexivity.
Qed.

(** ** mergeCollectionState *)

Lemma fold_insert_lookup (f : string -> val) (l : list string)
    (acc : gmap string val) (j : string) :
  fold_left (fun a key => <[key := f key]> a) l acc !! j =
  if decide (j ∈ l) then Some (f j) else acc !! j.
Proof.
  revert acc. induction l as [|k l IH]; intros acc.
  - cbn [fold_left]. case_decide as H; [by apply elem_of_nil in H|done].
  - cbn [fold_left]. rewrite IH.
    destruct (decide (j ∈ l)) as [Hl|Hl].
    + rewrite decide_True; [done|]. apply elem_of_cons. by right.
    + destruct (decide (j = k)) as [->|Hjk].
      * rewrite decide_True; [apply lookup_insert_eq|].
        apply elem_of_cons. by left.
      * rewrite lookup_insert_ne by done. rewrite decide_False; [done|].
        rewrite elem_of_cons. by intros [?|?].
Qed.

Lemma mergeCollectionState_entries (m es p pv : gmap string val) :
  m !! "value" = Some (VObj es) ->
  p !! "value" = Some (VObj pv) ->
  exists updated,
    mergeCollectionState (VObj m) (VObj p) =
    Ok (VObj (<["value" := VObj (updated ∪ es)]> (p ∪ m))) /\
    forall j, updated !! j =
              (fun _ => mergedEntry (VObj es) (VObj pv) j) <$> pv !! j.
Proof.
  intros Hm Hp.
  exists (fold_left (fun a key => <[key := mergedEntry (VObj es) (VObj pv) key]> a)
                    (keys (VObj pv)) ∅).
  split.
  - unfold mergeCollectionState.
    rewrite (getProp_Some _ _ _ Hp), bind_Ok. cbn [truthy negb].
    rewrite (getProp_Some _ _ _ Hm), bind_Ok.
    rewrite lit_empty, (reduce_fields (mergedEntry (VObj es) (VObj pv))), bind_Ok.
    cbn [mret result_ret]. by autorewrite with js.
  - intros j. rewrite (fold_insert_lookup (mergedEntry (VObj es) (VObj pv))).
    case_decide as Hj.
    + apply keys_obj in Hj as [v ->]. done.
    + rewrite lookup_empty. destruct (pv !! j) eqn:E; [|done].
      exfalso. apply Hj, keys_obj. by rewrite E.
Qed.

Lemma mergedEntry_objects (es pv oe pe ov nv : gmap string val) (k : string) :
  es !! k = Some (VObj oe) -> oe !! "value" = Some (VObj ov) ->
  pv !! k = Some (VObj pe) -> pe !! "value" = Some (VObj nv) ->
  mergedEntry (VObj es) (VObj pv) k =
  VObj (<["value" := VObj (nv ∪ ov)]> (pe ∪ oe)).
Proof.
  intros Hes Hov Hpv Hnv. unfold mergedEntry.
  rewrite optProp_obj, (prop_Some _ _ _ Hes), (prop_Some _ _ _ Hpv).
  rewrite !optProp_obj, (prop_Some _ _ _ Hov), (prop_Some _ _ _ Hnv).
  rewrite !or_else_obj. by autorewrite with js.
Qed.

Lemma mergedEntry_fresh (es pv eo : gmap string val) (k : string) :
  es !! k = None ->
  pv !! k = Some (freshEntry (VObj eo)) ->
  mergedEntry (VObj es) (VObj pv) k = freshEntry (VObj eo).
Proof.
  intros Hes Hpv. unfold mergedEntry.
  rewrite optProp_obj, (prop_None _ _ Hes), (prop_Some _ _ _ Hpv).
  assert (optProp (freshEntry (VObj eo)) "value" = VObj eo) as -> by done.
  assert (optProp VUndef "value" = VUndef) as -> by done.
  assert (or_else VUndef (lit []) = lit []) as -> by done.
  rewrite or_else_obj, lit_spread_spread_field, lit_spread_spread, lit_empty.
  cbn [spread]. rewrite !(right_id_L ∅ (∪)).
  unfold freshEntry, lit. cbn [fold_left add_part]. f_equal; solve_inserts.
Qed.

(** X10. Where [mergeEntityContext] replaces an entity the update names by
    the update's entry, [mergeCollectionState] merges the two entries field
    by field and their [value]s key by key, the update winning. *)
Theorem merge_of_an_existing_entity (C : val)
    (es p pv oe pe ov nv : gmap string val) (k : string) :
  entries C = Some es ->
  p !! "value" = Some (VObj pv) ->
  es !! k = Some (VObj oe) -> oe !! "value" = Some (VObj ov) ->
  pv !! k = Some (VObj pe) -> pe !! "value" = Some (VObj nv) ->
  (exists R es',
     mergeCollectionState C (VObj p) = Ok R /\ entries R = Some es' /\
     es' !! k = Some (VObj (<["value" := VObj (nv ∪ ov)]> (pe ∪ oe)))) /\
  (exists R es',
     mergeEntityContext C (VObj p) = Ok R /\ entries R = Some es' /\
     es' !! k = Some (VObj pe)).
Proof.
  open_collection m Hm. intros Hp Hes Hov Hpv Hnv. split.
  - destruct (mergeCollectionState_entries m es p pv Hm Hp)
      as (updated & -> & Hupd).
    eexists _, _. split_and!; [done|apply entries_insert_value|].
    apply lookup_union_Some_l. rewrite Hupd, Hpv. cbn.
    by rewrite (mergedEntry_objects _ _ _ _ _ _ _ Hes Hov Hpv Hnv).
  - eexists _, _. split_and!.
    + by apply mergeEntityContext_collection.
    + apply entries_insert_value.
    + by apply lookup_union_Some_l.
Qed.

Lemma mergeCollectionState_falsy_value (m p : gmap string val) :
  truthy (prop (VObj p) "value") = false ->
  mergeCollectionState (VObj m) (VObj p) = Ok (VObj (p ∪ m)).
Proof.
  intros Hf. unfold mergeCollectionState. cbv zeta.
  rewrite !getProp_obj, bind_Ok, Hf. cbn [negb mret result_ret].
  by autorewrite with js.
Qed.

(** X11. An update without a [value] key (a loading marker, an error flag)
    is spread over the collection by [mergeCollectionState]: its fields
    override those of the collection and the mapping is the one the
    collection had. *)
Theorem mergeCollectionState_flags_only (C : val) (es p : gmap string val) :
  entries C = Some es ->
  p !! "value" = None ->
  exists R,
    mergeCollectionState C (VObj p) = Ok R /\
    entries R = Some es /\
    forall f v, p !! f = Some v -> prop R f = v.
Proof.
  open_collection m Hm. intros Hp. eexists. split_and!.
  - apply mergeCollectionState_falsy_value. by rewrite (prop_None _ _ Hp).
  - cbn [entries]. by rewrite lookup_union_r, Hm.
  - intros f v Hf. by apply prop_Some, lookup_union_Some_l.
Qed.

(** An update whose [value] key is present but falsy ([null],
    [undefined], [false], [0], the empty string) is spread over the
    collection as well: the result's [value] is that falsy value and the
    mapping of the collection is gone. *)
Lemma mergeCollectionState_falsy_value_drops_mapping (C v : val)
    (es p : gmap string val) :
  entries C = Some es ->
  p !! "value" = Some v ->
  truthy v = false ->
  exists R,
    mergeCollectionState C (VObj p) = Ok R /\
    prop R "value" = v /\
    entries R = None.
Proof.
  open_collection m Hm. intros Hp Hv. eexists. split_and!.
  - apply mergeCollectionState_falsy_value. by rewrite (prop_Some _ _ _ Hp).
  - by apply prop_Some, lookup_union_Some_l.
  - cbn [entries]. rewrite (lookup_union_Some_l _ _ _ _ Hp).
    by destruct v.
Qed.

(** ** The load-all stream of the later service *)

Lemma connectState_step (project : val -> val -> result val)
    (s pr : gmap string val) (slice : val) :
  project (VObj s) slice = Ok (VObj pr) ->
  connectState project (VObj s) slice = Ok (VObj (pr ∪ s)).
Proof.
  intros H. unfold connectState. rewrite H, bind_Ok. cbn [mret result_ret].
  by autorewrite with js.
Qed.

Lemma loadAllProject_step (s m : gmap string val) (slice R : val) :
  s !! "todos" = Some (VObj m) ->
  mergeCollectionState (VObj m) slice = Ok R ->
  connectState loadAllProject (VObj s) slice = Ok (VObj (<["todos" := R]> s)).
Proof.
  intros Hs HR. rewrite (connectState_step _ _ {[ "todos" := R ]}).
  - by rewrite <- insert_union_singleton_l.
  - unfold loadAllProject. by rewrite (getProp_Some _ _ _ Hs), bind_Ok, HR.
Qed.

(** X12. Reducing the three emissions of a completed
    [withTrackedEntityCollection] request with the load-all reducer leaves
    the [todos] slice with [loading] and [error] both [false]; every fetched
    entity that is an object filed under a key the collection did not hold is
    read back by [selectEntity], and every entry under a key that is not
    among the fetched ones is the one the collection had. *)
Theorem loadAll_merges_fetched_entities (s es : gmap string val) (C : val)
    (idKey : option string) (entities : list val) :
  s !! "todos" = Some C ->
  entries C = Some es ->
  Forall (fun e => nullish e = false) entities ->
  NoDup (idOf idKey <$> entities) ->
  exists S' T es',
    reduceAll (connectState loadAllProject) (VObj s)
      (values (withTrackedEntityCollection idKey [Value (inl entities); End]))
      = Ok S' /\
    prop S' "todos" = T /\
    prop T "loading" = VBool false /\
    prop T "error" = VBool false /\
    entries T = Some es' /\
    (forall eo, VObj eo ∈ entities -> es !! idOf idKey (VObj eo) = None ->
       selectEntity (idOf idKey (VObj eo)) T = VObj eo) /\
    (forall j, j ∉ idOf idKey <$> entities -> es' !! j = es !! j).
Proof.
  intros Hs. open_collection m Hm. intros Hall Hnd.
  rewrite withTrackedEntityCollection_emission by done.
  cbn [rxMap endWith values omap list_omap reduceAll].
  (* the [true] marker *)
  assert (H1 : mergeCollectionState (VObj m) (VObj {[ "loading" := VBool true ]})
               = Ok (VObj ({[ "loading" := VBool true ]} ∪ m)))
    by (by apply mergeCollectionState_falsy_value).
  rewrite (loadAllProject_step _ _ _ _ Hs H1), bind_Ok.
  (* the collection update *)
  cbn [asArray]. set (M := filed idKey entities ∅).
  assert (Hu : lit [Field "value" (VObj M); Field "error" (VBool false)] =
               VObj (<["error" := VBool false]> {[ "value" := VObj M ]}))
    by done.
  rewrite Hu.
  assert (Hm1 : ({[ "loading" := VBool true ]} ∪ m) !! "value" = Some (VObj es))
    by (by rewrite lookup_union_r).
  destruct (mergeCollectionState_entries _ es
              (<["error" := VBool false]> {[ "value" := VObj M ]}) M Hm1)
    as (updated & H2 & Hupd); [by rewrite lookup_insert_ne|].
  rewrite (loadAllProject_step _ _ _ _ (lookup_insert_eq _ _ _) H2), bind_Ok.
  (* the [false] marker *)
  match type of H2 with _ = Ok (VObj ?x) => set (m2 := x) in * end.
  assert (H3 : mergeCollectionState (VObj m2) (VObj {[ "loading" := VBool false ]})
               = Ok (VObj ({[ "loading" := VBool false ]} ∪ m2)))
    by (by apply mergeCollectionState_falsy_value).
  rewrite (loadAllProject_step _ _ _ _ (lookup_insert_eq _ _ _) H3), bind_Ok.
  assert (Hval : ({[ "loading" := VBool false ]} ∪ m2) !! "value"
                 = Some (VObj (updated ∪ es))).
  { rewrite lookup_union_r by done. apply lookup_insert_eq. }
  eexists _, _, (updated ∪ es). split_and!.
  - reflexivity.
  - apply prop_insert_eq.
  - by apply prop_Some, lookup_union_Some_l.
  - apply prop_Some. rewrite lookup_union_r by done. unfold m2.
    rewrite lookup_insert_ne by done. by apply lookup_union_Some_l.
  - cbn [entries]. by rewrite Hval.
  - intros eo He Hfresh.
    rewrite (selectEntity_collection _ _ _ Hval).
    assert (HM : M !! idOf idKey (VObj eo) = Some (freshEntry (VObj eo)))
      by (by apply filed_lookup_NoDup).
    assert (updated !! idOf idKey (VObj eo) = Some (freshEntry (VObj eo))) as Hk.
    { rewrite Hupd, HM. cbn. by rewrite (mergedEntry_fresh _ _ eo). }
    by rewrite (prop_Some _ _ _ (lookup_union_Some_l _ es _ _ Hk)).
  - intros j Hj. apply lookup_union_r. rewrite Hupd.
    destruct (M !! j) as [entry|] eqn:E; [|done]. exfalso. apply Hj.
    unfold M in E. rewrite filed_lookup, lookup_empty in E.
    destruct (last _) as [e|] eqn:El; [|done].
    apply last_Some_elem_of, list_elem_of_filter in El as [<- He].
    by apply list_elem_of_fmap_2.
Qed.

(** ** mergeEntityContext, mergeContextState, withContextError *)

Lemma insert_union_insert (p m : gmap string val) (k : string) (x y : val) :
  <[k := y]> (p ∪ <[k := x]> m) = <[k := y]> (p ∪ m).
Proof.
  apply map_eq. intros i. destruct (decide (k = i)) as [->|Hki].
  - by rewrite !lookup_insert_eq.
  - rewrite !lookup_insert_ne, !lookup_union by done.
    by rewrite lookup_insert_ne.
Qed.

(** X13. Merging the same partial update a second time changes nothing. *)
Theorem mergeEntityContext_idempotent (C : val) (es p pv : gmap string val) :
  entries C = Some es ->
  p !! "value" = Some (VObj pv) ->
  exists R,
    mergeEntityContext C (VObj p) = Ok R /\
    mergeEntityContext R (VObj p) = Ok R.
Proof.
  open_collection m Hm. intros Hp. eexists.
  split; [by apply mergeEntityContext_collection|].
  rewrite (mergeEntityContext_collection _ _ _ _ (lookup_insert_eq _ _ _) Hp).
  rewrite insert_union_insert, !(assoc_L (∪)).
  by rewrite !(idemp_L (∪)).
Qed.

(** X14. Two partial updates merged one after the other give the mapping
    with the second update's entries over the first one's over the
    collection's; when the two updates name different entities the order of
    the merges does not matter for the mapping. *)
Theorem mergeEntityContext_order (C : val) (es p pv q qv : gmap string val) :
  entries C = Some es ->
  p !! "value" = Some (VObj pv) ->
  q !! "value" = Some (VObj qv) ->
  exists R1 R2 R12 R21,
    mergeEntityContext C (VObj p) = Ok R1 /\
    mergeEntityContext R1 (VObj q) = Ok R12 /\
    mergeEntityContext C (VObj q) = Ok R2 /\
    mergeEntityContext R2 (VObj p) = Ok R21 /\
    entries R12 = Some (qv ∪ (pv ∪ es)) /\
    entries R21 = Some (pv ∪ (qv ∪ es)) /\
    (dom pv ## dom qv -> entries R12 = entries R21).
Proof.
  open_collection m Hm. intros Hp Hq.
  exists (VObj (<["value" := VObj (pv ∪ es)]> (p ∪ m))),
         (VObj (<["value" := VObj (qv ∪ es)]> (q ∪ m))),
         (VObj (<["value" := VObj (qv ∪ (pv ∪ es))]>
                  (q ∪ <["value" := VObj (pv ∪ es)]> (p ∪ m)))),
         (VObj (<["value" := VObj (pv ∪ (qv ∪ es))]>
                  (p ∪ <["value" := VObj (qv ∪ es)]> (q ∪ m)))).
  split_and!.
  - by apply mergeEntityContext_collection.
  - apply mergeEntityContext_collection; [apply lookup_insert_eq|done].
  - by apply mergeEntityContext_collection.
  - apply mergeEntityContext_collection; [apply lookup_insert_eq|done].
  - apply entries_insert_value.
  - apply entries_insert_value.
  - intros Hdisj. rewrite !entries_insert_value. f_equal.
    rewrite !(assoc_L (∪)). f_equal.
    apply map_union_comm. symmetry. by apply map_disjoint_dom_2.
Qed.

(** X15. With no previous state ([undefined] or [null]) the merge starts
    from the initial context: the result is a collection whose mapping is the
    update's and whose [loading] is [false] unless the update says otherwise. *)
Theorem mergeEntityContext_without_state (old : val) (p pv : gmap string val) :
  nullish old = true ->
  p !! "value" = Some (VObj pv) ->
  exists R,
    mergeEntityContext old (VObj p) = Ok R /\
    entries R = Some pv /\
    (p !! "loading" = None -> prop R "loading" = VBool false) /\
    (forall f v, f ≠ "value" -> p !! f = Some v -> prop R f = v).
Proof.
  intros Hold Hp.
  assert (Hinit : or_else old createInitialContext =
                  VObj (<["loading" := VBool false]> {[ "value" := VObj ∅ ]}))
    by (by destruct old).
  assert (Hov : or_else (optProp old "value") (lit []) = VObj ∅)
    by (by destruct old).
  unfold mergeEntityContext. cbv zeta. rewrite Hinit, Hov, patch_obj.
  rewrite optProp_obj, (prop_Some _ _ _ (lookup_union_Some_l _ _ _ _ Hp)).
  rewrite or_else_obj, patch_obj. cbn [setProp].
  rewrite (right_id_L ∅ (∪)).
  eexists. split_and!.
  - reflexivity.
  - apply entries_insert_value.
  - intros Hl. apply prop_Some. rewrite lookup_insert_ne by done.
    rewrite lookup_union_r by done. apply lookup_insert_eq.
  - intros f v Hf Hv. apply prop_Some. rewrite lookup_insert_ne by done.
    by apply lookup_union_Some_l.
Qed.

(** [mergeContextState] with an update whose [value] is missing,
    [undefined] or [null] keeps the value of the current state and lets every
    other field of the update override; with an update that is itself
    [undefined] or [null] it raises a [TypeError]. *)
Lemma mergeContextState_flags_only (current : val) (o p : gmap string val)
    (update : val) :
  nullish (prop (VObj p) "value") = true ->
  nullish update = true ->
  (exists R,
     mergeContextState (VObj o) (VObj p) = Ok (VObj R) /\
     R !! "value" = Some (prop (VObj o) "value") /\
     (forall f v, f ≠ "value" -> p !! f = Some v -> R !! f = Some v) /\
     (forall f, f ≠ "value" -> p !! f = None -> R !! f = o !! f)) /\
  mergeContextState current update = Throw TypeError.
Proof.
  intros Hp Hu. split.
  - eexists. split_and!.
    + by apply mergeContextState_keeps_value.
    + apply lookup_insert_eq.
    + intros f v Hf Hv. rewrite lookup_insert_ne by done.
      by apply lookup_union_Some_l.
    + intros f Hf Hv. rewrite lookup_insert_ne by done.
      by apply lookup_union_r.
  - unfold mergeContextState, getProp. by rewrite Hu.
Qed.

(** X16. For an error that is an object, [withContextError] returns an
    update whose [loading] is [false] and whose [error] is truthy: the
    error's message, or ["An error occurred"] when the message is missing or
    empty. With an id the update holds one entry for it, whose [value] is
    [null] and whose [error] is the message without that fallback; without an
    id its mapping is empty. On [undefined] or [null] it raises a
    [TypeError]. *)
Theorem withContextError_shape (e : gmap string val) (id : string)
    (err : val) :
  id ≠ "" ->
  nullish err = true ->
  (exists P,
     withContextError (VObj e) (Some id) = Ok P /\
     prop P "loading" = VBool false /\
     prop P "error" = or_else (prop (VObj e) "message") (VStr "An error occurred") /\
     truthy (prop P "error") = true /\
     entries P = Some {[ id := VObj {[ "value" := VNull;
                                       "loading" := VBool false;
                                       "error" := prop (VObj e) "message" ]} ]}) /\
  (exists P,
     withContextError (VObj e) None = Ok P /\
     prop P "loading" = VBool false /\
     truthy (prop P "error") = true /\
     entries P = Some ∅) /\
  withContextError err (Some id) = Throw TypeError /\
  withContextError err None = Throw TypeError.
Proof.
  intros Hid Herr.
  assert (Ht : truthy (VStr id) = true).
  { cbn [truthy]. by destruct (String.eqb_spec id ""). }
  assert (Hor : truthy (or_else (prop (VObj e) "message")
                                (VStr "An error occurred")) = true).
  { unfold or_else. by destruct (truthy (prop (VObj e) "message")) eqn:E. }
  split_and!.
  - unfold withContextError. cbn [from_option]. rewrite Ht.
    rewrite !getProp_obj, !bind_Ok. cbn [mret result_ret].
    eexists. split_and!; [reflexivity|done|done|exact Hor|].
    unfold lit. cbn [fold_left add_part entries toStr].
    rewrite lookup_insert_ne, lookup_insert_ne, lookup_insert_eq by done.
    reflexivity.
  - unfold withContextError. cbn [from_option truthy]. cbv iota.
    cbn [mret result_ret]. rewrite bind_Ok, getProp_obj, bind_Ok.
    eexists. split_and!; [reflexivity|done|exact Hor|done].
  - unfold withContextError. cbn [from_option]. rewrite Ht.
    unfold getProp. by rewrite Herr.
  - unfold withContextError. cbn [from_option truthy]. cbv iota.
    cbn [mret result_ret]. rewrite bind_Ok. unfold getProp. by rewrite Herr.
Qed.

(** X17. Merging the response of a single fetch, wrapped by
    [withContextResponse] under a non-empty id, into a collection makes
    [selectEntity] read the fetched entity for that id and what it read
    before for any other id; the collection's [loading] is [false] and its
    [error] is [null]. *)
Theorem withContextResponse_round_trip (C todo : val) (id : string)
    (es : gmap string val) :
  entries C = Some es ->
  id ≠ "" ->
  exists R,
    mergeEntityContext C (withContextResponse todo (Some id)) = Ok R /\
    selectEntity id R = todo /\
    (forall j, j ≠ id -> selectEntity j R = selectEntity j C) /\
    prop R "loading" = VBool false /\
    prop R "error" = VNull.
Proof.
  open_collection m Hm. intros Hid.
  assert (Ht : truthy (VStr id) = true).
  { cbn [truthy]. by destruct (String.eqb_spec id ""). }
  unfold withContextResponse. cbn [from_option]. rewrite Ht.
  unfold lit at 1. cbn [fold_left add_part toStr].
  rewrite lit_field.
  rewrite (mergeEntityContext_collection m es _ {[ id := _ ]} Hm)
    by (by rewrite lookup_insert_ne, lookup_insert_ne, lookup_insert_eq).
  eexists. split_and!.
  - reflexivity.
  - rewrite (selectEntity_collection _ _ _ (lookup_insert_eq _ _ _)).
    rewrite (prop_Some _ _ _ (lookup_union_Some_l _ es _ _
                                (lookup_singleton_eq _ _))).
    done.
  - intros j Hj.
    rewrite (selectEntity_collection _ _ _ (lookup_insert_eq _ _ _)),
      (selectEntity_collection _ _ _ Hm).
    cbn [prop]. rewrite lookup_union_r; [done|]. by apply lookup_singleton_ne.
  - apply prop_Some. rewrite lookup_insert_ne by done.
    apply lookup_union_Some_l. by rewrite lookup_insert_ne, lookup_insert_eq.
  - apply prop_Some. rewrite lookup_insert_ne by done.
    apply lookup_union_Some_l. apply lookup_insert_eq.
Qed.

(** ** The toggle reducers *)

Lemma lit_spread_lit_field (inner : val) (k : string) (v : val) :
  lit [Spread inner; Spread (lit [Field k v])] = lit [Spread inner; Field k v].
Proof.
  rewrite lit_spread_spread, lit_spread_field, lit_field. cbn [spread].
  by rewrite <- insert_union_singleton_l.
Qed.

(** X18. The toggle reducer written with [updateEntity] (todos2.state.ts)
    and the one written out with spreads (oldtodos.state.ts) return the same
    state, or both raise, on every state and id. *)
Theorem toggle_reducers_agree (state todoId : val) :
  oldToggleProject state todoId = toggleProject state todoId.
Proof.
  unfold oldToggleProject, toggleProject.
  destruct (getProp state "todos") as [todos|] eqn:E1; [|done].
  rewrite !bind_Ok.
  destruct (getProp todos "value") as [sv|] eqn:E2; [|done].
  rewrite !bind_Ok.
  destruct (getProp sv (toStr todoId)) as [entry|] eqn:E3; [|done].
  rewrite !bind_Ok.
  destruct (getProp entry "value") as [inner|] eqn:E4; [|done].
  rewrite !bind_Ok.
  destruct (getProp inner "completed") as [completed|] eqn:E5; [|done].
  rewrite !bind_Ok.
  unfold updateEntity. rewrite E2, bind_Ok, E3, bind_Ok, E4, bind_Ok.
  cbn [mret result_ret]. by rewrite bind_Ok, lit_spread_lit_field.
Qed.

Lemma toggleProject_collection (s m es eo iv : gmap string val) (id c : val) :
  s !! "todos" = Some (VObj m) ->
  m !! "value" = Some (VObj es) ->
  es !! toStr id = Some (VObj eo) ->
  eo !! "value" = Some (VObj iv) ->
  iv !! "completed" = Some c ->
  connectState toggleProject (VObj s) id =
  Ok (VObj (<["todos" :=
              VObj (<["value" :=
                      VObj (<[toStr id :=
                              VObj (<["value" :=
                                      VObj (<["completed" := VBool (negb (truthy c))]> iv)]>
                                      eo)]> es)]> m)]> s)).
Proof.
  intros Hs Hm Hes Heo Hiv.
  match goal with |- _ = Ok (VObj (<["todos" := ?x]> s)) => set (T := x) end.
  rewrite (connectState_step _ _ {[ "todos" := T ]}).
  - by rewrite <- insert_union_singleton_l.
  - unfold toggleProject.
    rewrite (getProp_Some _ _ _ Hs), bind_Ok, (getProp_Some _ _ _ Hm), bind_Ok.
    rewrite (getProp_Some _ _ _ Hes), bind_Ok, (getProp_Some _ _ _ Heo), bind_Ok.
    rewrite (getProp_Some _ _ _ Hiv), bind_Ok.
    rewrite (updateEntity_collection _ _ _ _ _ Hm Hes) by done.
    rewrite bind_Ok, (prop_Some _ _ _ Heo), !lit_field.
    cbn [spread mret result_ret]. unfold T.
    by rewrite <- insert_union_singleton_l.
Qed.

(** X19. Toggling an entity flips its [completed] field and nothing else;
    toggling it twice gives back the state when [completed] was a boolean.
    For an id the collection does not hold the reducer raises a
    [TypeError]. *)
Theorem toggle_twice (s es eo iv : gmap string val) (C id : val) (b : bool) :
  s !! "todos" = Some C ->
  entries C = Some es ->
  es !! toStr id = Some (VObj eo) ->
  eo !! "value" = Some (VObj iv) ->
  iv !! "completed" = Some (VBool b) ->
  (exists S1,
     connectState toggleProject (VObj s) id = Ok S1 /\
     selectEntity (toStr id) (prop S1 "todos") =
       VObj (<["completed" := VBool (negb b)]> iv) /\
     (forall j, j ≠ toStr id ->
        selectEntity j (prop S1 "todos") = selectEntity j C) /\
     connectState toggleProject S1 id = Ok (VObj s)) /\
  (forall id', es !! toStr id' = None ->
     connectState toggleProject (VObj s) id' = Throw TypeError).
Proof.
  intros Hs. open_collection m Hm. intros Hes Heo Hiv. split.
  - eexists. split_and!.
    + by apply (toggleProject_collection _ _ _ _ _ _ _ Hs Hm Hes Heo Hiv).
    + rewrite prop_insert_eq.
      rewrite (selectEntity_collection _ _ _ (lookup_insert_eq _ _ _)).
      rewrite prop_insert_eq, optProp_obj. apply prop_insert_eq.
    + intros j Hj. rewrite prop_insert_eq.
      rewrite (selectEntity_collection _ _ _ (lookup_insert_eq _ _ _)),
        (selectEntity_collection _ _ _ Hm).
      by rewrite prop_insert_ne.
    + rewrite (toggleProject_collection _ _ _ _ _ _ (VBool (negb b))
                 (lookup_insert_eq _ _ _) (lookup_insert_eq _ _ _)
                 (lookup_insert_eq _ _ _) (lookup_insert_eq _ _ _)
                 (lookup_insert_eq _ _ _)).
      cbn [truthy]. rewrite negb_involutive, !insert_insert_eq.
      by rewrite (insert_id iv), (insert_id eo), (insert_id es),
        (insert_id m), (insert_id s).
  - intros id' Hid'. unfold connectState, toggleProject.
    rewrite (getProp_Some _ _ _ Hs), bind_Ok, (getProp_Some _ _ _ Hm), bind_Ok.
    by rewrite (getProp_None _ _ Hid'), bind_Ok.
Qed.

(** ** selectIsLoading *)

Lemma getProp_defined (v : val) (k : string) :
  nullish v = false -> getProp v k = Ok (prop v k).
Proof. intros H. unfold getProp. by rewrite H. Qed.

Lemma some_loading (xs : list val) :
  Forall (fun e => nullish e = false) xs ->
  (Exists (fun e => truthy (prop e "loading") = true) xs ->
   some (fun ctx => getProp ctx "loading") xs = Ok (VBool true)) /\
  (Forall (fun e => truthy (prop e "loading") = false) xs ->
   some (fun ctx => getProp ctx "loading") xs = Ok (VBool false)).
Proof.
  induction 1 as [|x xs Hx _ [IH1 IH2]]; split.
  - by intros ?%Exists_nil.
  - done.
  - intros Hex. cbn [some]. rewrite (getProp_defined _ _ Hx), bind_Ok.
    destruct (truthy (prop x "loading")) eqn:E; [done|].
    apply IH1. apply Exists_cons in Hex as [?|?]; [congruence|done].
  - intros Hall. apply Forall_cons in Hall as [Hx' Hall].
    cbn [some]. rewrite (getProp_defined _ _ Hx), bind_Ok, Hx'. by apply IH2.
Qed.

Lemma objectValues_elem (es : gmap string val) (e : val) :
  e ∈ objectValues (VObj es) <-> exists k, es !! k = Some e.
Proof.
  unfold objectValues. cbn [spread]. rewrite list_elem_of_fmap. split.
  - intros ([k v] & -> & Hkv). exists k. by apply elem_of_map_to_list.
  - intros [k Hk]. exists (k, e). split; [done|]. by apply elem_of_map_to_list.
Qed.

(** X20. On a collection whose entries are neither [undefined] nor [null],
    [selectIsLoading] returns a boolean, and it is [true] exactly when the
    collection's [loading] is truthy or some entry's is. *)
Theorem selectIsLoading_spec (C : val) (es : gmap string val) :
  entries C = Some es ->
  (forall k e, es !! k = Some e -> nullish e = false) ->
  (selectIsLoading C = Ok (VBool true) \/ selectIsLoading C = Ok (VBool false)) /\
  (selectIsLoading C = Ok (VBool true) <->
   truthy (prop C "loading") = true \/
   exists k e, es !! k = Some e /\ truthy (prop e "loading") = true).
Proof.
  open_collection m Hm. intros Hnn.
  unfold selectIsLoading. rewrite getProp_obj, bind_Ok.
  destruct (truthy (prop (VObj m) "loading")) eqn:El.
  { cbn [mret result_ret]. split; [by left|]. split; [by left|done]. }
  rewrite optProp_obj, (prop_Some _ _ _ Hm), or_else_obj.
  assert (Hall : Forall (fun e => nullish e = false) (objectValues (VObj es))).
  { apply Forall_forall. intros e [k Hk]%objectValues_elem. by apply (Hnn k). }
  destruct (some_loading _ Hall) as [H1 H2].
  destruct (decide (Exists (fun e => truthy (prop e "loading") = true)
                           (objectValues (VObj es)))) as [Hex|Hno].
  - rewrite (H1 Hex). split; [by left|]. split; [|done]. intros _. right.
    apply Exists_exists in Hex as (e & [k Hk]%objectValues_elem & He). eauto.
  - assert (Hf : Forall (fun e => truthy (prop e "loading") = false)
                        (objectValues (VObj es))).
    { apply Forall_forall. intros e He.
      destruct (truthy (prop e "loading")) eqn:E; [|done].
      exfalso. apply Hno, Exists_exists. eauto. }
    rewrite (H2 Hf). split; [by right|]. split; [done|].
    intros [?|(k & e & Hk & He)]; [done|]. exfalso. apply Hno, Exists_exists.
    exists e. split; [|done]. apply objectValues_elem. eauto.
Qed.

(** ** exhaustMap over any stream of events *)

Lemma exhaustMap_snoc (events : list event) (e : event) :
  exhaustMap (events ++ [e]) = exhaustMap_step (exhaustMap events) e.
Proof. unfold exhaustMap. by rewrite fold_left_app. Qed.

(** X21. Whatever the events, [exhaustMap] has called [project] with the
    indices 0, 1, 2, ... in order and without gaps, for payloads that form a
    subsequence of the dispatched ones, and the inner subscription that is
    active, if any, is the one of the last call. *)
Theorem exhaustMap_calls_invariant (events : list event) :
  let s := exhaustMap events in
  (projected s).*2 = seq 0 (index s) /\
  (projected s).*1 `sublist_of` dispatched events /\
  (forall i, innerSub s = Some i -> index s = S i) /\
  listCalls s = index s.
Proof.
  cbv zeta. unfold listCalls, dispatched.
  induction events as [|e events IH] using rev_ind.
  { split_and!; [done|done|by intros ?|done]. }
  destruct IH as (Hidx & Hsub & Hact & Hlen).
  rewrite exhaustMap_snoc, omap_app.
  destruct e as [v| |x|]; cbn [exhaustMap_step omap list_omap].
  - destruct (innerSub (exhaustMap events)) as [i|] eqn:Hi.
    + split_and!; [done|by apply sublist_inserts_r|by rewrite Hi|done].
    + cbn [projected index innerSub]. rewrite !fmap_app, length_app, seq_S.
      cbn. split_and!.
      * by rewrite Hidx.
      * by apply sublist_app.
      * by intros i [= <-].
      * rewrite Hlen. lia.
  - cbn [projected index innerSub]. rewrite (right_id_L [] (++)%list).
    by split_and!.
  - rewrite (right_id_L [] (++)%list).
    destruct (innerSub (exhaustMap events)) as [i|] eqn:Hi;
      cbn [projected index innerSub]; split_and!; try done; by rewrite Hi.
  - cbn [projected index innerSub]. rewrite (right_id_L [] (++)%list).
    by split_and!.
Qed.

(** ** The fetch-all stream of todos.state.ts on a failing request *)

Lemma fetchTodos_step (s m es p pv : gmap string val) :
  s !! "todos" = Some (VObj m) ->
  m !! "value" = Some (VObj es) ->
  p !! "value" = Some (VObj pv) ->
  connect "todos" fetchTodosProject (VObj s) (VObj p) =
  Ok (VObj (<["todos" :=
              VObj (<["error" := prop (VObj p) "error"]>
                      (<["loading" := prop (VObj p) "loading"]>
                         (<["value" := VObj (pv ∪ es)]> s)))]> s)).
Proof.
  intros Hs Hm Hp. unfold connect, fetchTodosProject.
  rewrite (getProp_Some _ _ _ Hs), bind_Ok.
  rewrite (mergeEntityContext_collection _ _ _ _ Hm Hp), bind_Ok.
  rewrite (getProp_Some _ _ _ (lookup_insert_eq _ _ _)), bind_Ok.
  rewrite !getProp_obj, !bind_Ok. cbn [mret result_ret].
  by autorewrite with js.
Qed.

(** X22. When the list request fails with an error carrying a non-empty
    message, the fetch-all stream emits the loading marker wrapped as a
    response and then the error update; reduced into the state, the [todos]
    slice ends with that message as [error] and [loading: false], its
    [loading] was [false] after the marker too, and its mapping has gained
    an entry named [loading]. *)
Theorem fetchTodos_failure_stream (s es e : gmap string val) (C msg : val) :
  s !! "todos" = Some C ->
  entries C = Some es ->
  e !! "message" = Some msg ->
  truthy msg = true ->
  exists P1 S1 S2,
    values (fetchTodosInner [Error (VObj e)]) = [P1; failureUpdate msg] /\
    connect "todos" fetchTodosProject (VObj s) P1 = Ok S1 /\
    prop (prop S1 "todos") "loading" = VBool false /\
    reduceAll (connect "todos" fetchTodosProject) (VObj s)
      (values (fetchTodosInner [Error (VObj e)])) = Ok S2 /\
    prop (prop S2 "todos") "error" = msg /\
    prop (prop S2 "todos") "loading" = VBool false /\
    entries (prop S2 "todos") = Some (<["loading" := VBool true]> es).
Proof.
  intros Hs. open_collection m Hm. intros He Hmsg.
  assert (Hstream : fetchTodosInner [Error (VObj e)] =
            [Next (VObj (<["error" := VNull]>
                           (<["loading" := VBool false]>
                              {[ "value" := VObj {[ "loading" := VBool true ]} ]})));
             Next (failureUpdate msg); Complete]).
  { unfold fetchTodosInner, withLoadingEmission, startWith. cbv zeta.
    cbn [endWith asItems fmap list_fmap rxMap mret result_ret catchError].
    rewrite (withContextError_collection _ _ He), bind_Ok.
    unfold or_else. rewrite Hmsg. reflexivity. }
  rewrite Hstream. cbn [values omap list_omap reduceAll].
  set (pv1 := ({[ "loading" := VBool true ]} : gmap string val)).
  assert (H1 := fetchTodos_step s m es
                  (<["error" := VNull]>
                     (<["loading" := VBool false]> {[ "value" := VObj pv1 ]}))
                  pv1 Hs Hm eq_refl).
  rewrite prop_insert_eq, prop_insert_ne, prop_insert_eq in H1 by done.
  eexists _, _, _. split; [reflexivity|]. split; [exact H1|].
  split; [rewrite prop_insert_eq; by rewrite prop_insert_ne, prop_insert_eq|].
  rewrite H1, bind_Ok.
  assert (Hfu : failureUpdate msg =
                VObj (<["error" := msg]>
                        (<["loading" := VBool false]> {[ "value" := VObj ∅ ]})))
    by done.
  rewrite Hfu.
  assert (Hm1 : (<["error" := VNull]>
                   (<["loading" := VBool false]>
                      (<["value" := VObj (pv1 ∪ es)]> s))) !! "value"
                = Some (VObj (pv1 ∪ es))).
  { rewrite lookup_insert_ne, lookup_insert_ne by done. apply lookup_insert_eq. }
  assert (Hp2 : (<["error" := msg]>
                   (<["loading" := VBool false]>
                      ({[ "value" := VObj ∅ ]} : gmap string val))) !! "value"
                = Some (VObj ∅)).
  { rewrite lookup_insert_ne, lookup_insert_ne by done.
    apply lookup_singleton_eq. }
  rewrite (fetchTodos_step _ _ (pv1 ∪ es) _ ∅ (lookup_insert_eq _ _ _) Hm1 Hp2).
  rewrite bind_Ok, prop_insert_eq, prop_insert_ne, prop_insert_eq by done.
  split; [reflexivity|]. rewrite prop_insert_eq. split_and!.
  - apply prop_insert_eq.
  - by rewrite prop_insert_ne, prop_insert_eq.
  - cbn [entries]. rewrite lookup_insert_ne, lookup_insert_ne, lookup_insert_eq
      by done.
    by rewrite (left_id_L ∅ (∪)), insert_union_singleton_l.
Qed.

(** ** The dispatcher and the traps of the proxy *)

Ltac run_proxy :=
  cbv [dispatch transformed getOrCreateState loadingNext completeNext errorNext
       handleError setStateMap setSubjectMap setMicrotasks tryCatch when lift
       subjectNext trackingPipe settle getEventEmitter
       mbind mret act_bind act_ret truthy negb
       stateMap subjectMap handled microtasks].

Lemma getProp_silent_default : getProp (lit []) "silent" = Ok VUndef.
Proof. reflexivity. Qed.

(** X23. A dispatch with a payload that is not an object, whose transform
    (if any) returns, on an action whose stream has not been accessed: the
    call returns, the transformed payload is sent through the subject, the
    signals read [loading: true], [complete: false], [error: null], nothing
    is reported, and no settlement is pending, so [loading] stays [true];
    accessing the stream afterwards installs no tracking on the subject the
    dispatch has created. *)
Theorem dispatcher_untracked
    (transformsMap : gmap string (val -> result val)) (errorHandler : bool)
    (action : string) (payload v : val) (w : world) :
  typeofObject payload = false ->
  transformed transformsMap action payload = Ok v ->
  (forall s, subjectMap w !! action = Some s -> tracked s = false) ->
  exists w' t s',
    dispatcher transformsMap errorHandler action [payload] w = (Ok tt, w') /\
    subjectMap w' !! action = Some s' /\
    tracked s' = false /\
    sent s' = (default [] (sent <$> subjectMap w !! action) ++ [v])%list /\
    stateMap w' !! action = Some t /\
    current (loading_ t) = Some (VBool true) /\
    current (complete_ t) = Some (VBool false) /\
    current (error_ t) = Some VNull /\
    handled w' = handled w /\
    microtasks w' = microtasks w /\
    getEventEmitter action w' = (Ok tt, w').
Proof.
  intros Hobj Hv Hun. destruct w as [sm sj hd mt].
  unfold dispatcher. cbn [last]. rewrite Hobj. cbn [head default from_option id].
  rewrite getProp_silent_default. unfold transformed in Hv. run_proxy.
  rewrite Hv. cbn [subjectMap] in Hun.
  destruct (sj !! action) as [s0|] eqn:Hsj.
  - cbv iota. rewrite Hsj, (Hun s0 eq_refl).
    destruct (sm !! action) as [t0|] eqn:Hsm;
      (eexists _, _, _; split; [reflexivity|]);
      (split; [apply lookup_insert_eq|]); (split; [reflexivity|]);
      (split; [reflexivity|]);
      (split; [rewrite !lookup_alter_eq, ?lookup_insert_eq, ?Hsm; reflexivity|]);
      repeat (split; [first [apply last_snoc | reflexivity]|]);
      by rewrite lookup_insert_eq.
  - cbv iota. rewrite lookup_insert_eq. cbn [tracked sent].
    destruct (sm !! action) as [t0|] eqn:Hsm;
      (eexists _, _, _; split; [reflexivity|]);
      (split; [apply lookup_insert_eq|]); (split; [reflexivity|]);
      (split; [reflexivity|]);
      (split; [rewrite !lookup_alter_eq, ?lookup_insert_eq, ?Hsm; reflexivity|]);
      repeat (split; [first [apply last_snoc | reflexivity]|]);
      by rewrite lookup_insert_eq.
Qed.

(** X24. On an action whose stream has been accessed, a dispatch without
    transform leaves a settlement pending with [loading: true]; once the
    promise resolves the signals read [loading: false], [complete: true],
    [error: null] and nothing is pending. *)
Theorem dispatcher_tracked_settles
    (transformsMap : gmap string (val -> result val)) (errorHandler : bool)
    (action : string) (payload : val) (w : world) (s : subject) (t0 : tracking) :
  typeofObject payload = false ->
  transformsMap !! action = None ->
  subjectMap w !! action = Some s ->
  tracked s = true ->
  stateMap w !! action = Some t0 ->
  exists w1 t1 w2 t2,
    dispatcher transformsMap errorHandler action [payload] w = (Ok tt, w1) /\
    stateMap w1 !! action = Some t1 /\
    current (loading_ t1) = Some (VBool true) /\
    (action ∈ microtasks w1) /\
    settle action w1 = (Ok tt, w2) /\
    stateMap w2 !! action = Some t2 /\
    current (loading_ t2) = Some (VBool false) /\
    current (complete_ t2) = Some (VBool true) /\
    current (error_ t2) = Some VNull /\
    (action ∉ microtasks w2) /\
    handled w2 = handled w.
Proof.
  intros Hobj Htm Hsj Htr Hsm. destruct w as [sm sj hd mt].
  cbn [subjectMap stateMap] in Hsj, Hsm.
  unfold dispatcher. cbn [last]. rewrite Hobj. cbn [head default from_option id].
  rewrite getProp_silent_default. run_proxy.
  repeat (progress (cbv beta iota; rewrite ?Htm, ?Hsj, ?Htr, ?Hsm)).
  eexists _, _, _, _. split; [reflexivity|].
  split; [rewrite !lookup_alter_eq, Hsm; reflexivity|].
  split; [apply last_snoc|].
  split; [apply elem_of_app; right; by apply list_elem_of_singleton|].
  split; [reflexivity|].
  split; [rewrite !lookup_alter_eq, Hsm; reflexivity|].
  split; [apply last_snoc|]. split; [apply last_snoc|].
  split; [apply last_snoc|].
  split; [|reflexivity].
  by intros [? _]%list_elem_of_filter.
Qed.

(** X25. With no transform registered, a single argument that is an object
    is taken for the dispatch configuration: what is sent through the subject
    is [undefined], not the object. The dispatcher raises the [loading]
    signal unless the object's [silent] field is truthy, and the tracking
    subscription, when the subject carries one, raises it whatever [silent]
    says. This holds in every state of the proxy: signals and subject are
    created when missing. *)
Theorem dispatcher_object_payload
    (transformsMap : gmap string (val -> result val)) (errorHandler : bool)
    (action : string) (o : gmap string val) (w : world) :
  transformsMap !! action = None ->
  exists w' t s',
    dispatcher transformsMap errorHandler action [VObj o] w = (Ok tt, w') /\
    subjectMap w' !! action = Some s' /\
    sent s' = (default [] (sent <$> subjectMap w !! action) ++ [VUndef])%list /\
    stateMap w' !! action = Some t /\
    loading_ t =
      (loading_ (default freshTracking (stateMap w !! action))
       ++ (if truthy (prop (VObj o) "silent") then [] else [VBool true])
       ++ (if default false (tracked <$> subjectMap w !! action)
           then [VBool true] else []))%list.
Proof.
  intros Htm. destruct w as [sm sj hd mt]. cbn [subjectMap stateMap].
  unfold dispatcher. cbn [last typeofObject removelast head].
  change (default VUndef (head [])) with VUndef.
  rewrite getProp_obj. cbv [lift mbind act_bind getOrCreateState setStateMap].
  cbn [stateMap].
  destruct (sm !! action) as [t0|] eqn:Hsm;
    destruct (truthy (prop (VObj o) "silent")) eqn:Hsilent;
    run_proxy; rewrite Htm;
    (destruct (sj !! action) as [s0|] eqn:Hsj;
     [cbv iota; rewrite Hsj; destruct (tracked s0) eqn:Htr
     |cbv iota; rewrite lookup_insert_eq; cbn [tracked sent]]);
    repeat (progress (cbv beta iota; rewrite ?Htm, ?Hsj, ?Hsm));
    (eexists _, _, _; split; [reflexivity|]);
    (split; [apply lookup_insert_eq|]); (split; [reflexivity|]);
    (split; [rewrite !lookup_alter_eq, ?lookup_insert_eq, ?Hsm; reflexivity|]).
  all: cbn [fmap option_fmap option_map default from_option id loading_
            freshTracking app].
  all: rewrite ?Htr.
  all: try reflexivity.
  all: by rewrite <- ?(assoc_L (++)%list), ?(right_id_L [] (++)%list).
Qed.

(** X26. A call whose last argument is [null] raises a [TypeError] to the
    caller: [null] is taken for the configuration and [config.silent] is read
    outside the [try]. Nothing is sent and nothing is reported. *)
Theorem dispatcher_null_argument
    (transformsMap : gmap string (val -> result val)) (errorHandler : bool)
    (action : string) (args : list val) (w : world) :
  exists w',
    dispatcher transformsMap errorHandler action (args ++ [VNull]) w
      = (Throw TypeError, w') /\
    subjectMap w' = subjectMap w /\
    handled w' = handled w.
Proof.
  destruct w as [sm sj hd mt]. unfold dispatcher.
  rewrite last_snoc. cbn [typeofObject].
  assert (getProp VNull "silent" = Throw TypeError) as -> by done.
  run_proxy. by eexists.
Qed.

(** X27. With the configuration [{silent: true}] and no transform the
    payload is sent through the subject; the dispatcher does not raise the
    [loading] signal, but the tracking subscription, when the stream has been
    accessed, raises it all the same. *)
Theorem dispatcher_silent
    (transformsMap : gmap string (val -> result val)) (errorHandler : bool)
    (action : string) (payload : val) (c : gmap string val) (w : world)
    (s : subject) (t0 : tracking) :
  truthy (prop (VObj c) "silent") = true ->
  transformsMap !! action = None ->
  subjectMap w !! action = Some s ->
  stateMap w !! action = Some t0 ->
  exists w' t s',
    dispatcher transformsMap errorHandler action [payload; VObj c] w
      = (Ok tt, w') /\
    subjectMap w' !! action = Some s' /\
    sent s' = (sent s ++ [payload])%list /\
    stateMap w' !! action = Some t /\
    loading_ t = if tracked s then (loading_ t0 ++ [VBool true])%list
                 else loading_ t0.
Proof.
  intros Hsilent Htm Hsj Hsm. destruct w as [sm sj hd mt].
  cbn [subjectMap stateMap] in Hsj, Hsm.
  unfold dispatcher. cbn [last typeofObject removelast head default from_option id].
  rewrite getProp_obj. cbv [lift mbind act_bind getOrCreateState setStateMap].
  cbn [stateMap]. rewrite Hsm, Hsilent. cbv beta iota.
  run_proxy.
  repeat (progress (cbv beta iota; rewrite ?Htm, ?Hsj, ?Hsm)).
  destruct (tracked s) eqn:Htr;
    repeat (progress (cbv beta iota; rewrite ?Htm, ?Hsj, ?Hsm));
    (eexists _, _, _; split; [reflexivity|]);
    (split; [apply lookup_insert_eq|]); (split; [reflexivity|]);
    (split; [rewrite !lookup_alter_eq, ?Hsm; reflexivity|]);
    reflexivity.
Qed.

Lemma handleError_returns (errorHandler : bool) (err : val) (w : world) :
  exists w', handleError errorHandler err w = (Ok tt, w').
Proof. destruct errorHandler; by eexists. Qed.

Lemma dispatch_returns (transformsMap : gmap string (val -> result val))
    (errorHandler : bool) (value : val) (action : string) (w : world) :
  exists w', dispatch transformsMap errorHandler value action w = (Ok tt, w').
Proof.
  destruct w as [sm sj hd mt]. cbv [dispatch mbind act_bind setSubjectMap
    tryCatch lift subjectMap stateMap handled microtasks].
  destruct (transformed transformsMap action value) as [v|e].
  2:{ apply handleError_returns. }
  cbv [subjectNext subjectMap].
  assert (exists s0, match sj !! action with
                     | Some _ => sj
                     | None => <[action := {| tracked := false; sent := [] |}]> sj
                     end !! action = Some s0) as [s0 ->].
  { destruct (sj !! action) eqn:E; [by rewrite E; eauto|].
    rewrite lookup_insert_eq. eauto. }
  cbv beta iota. destruct (tracked s0) eqn:Htr.
  - run_proxy.
    destruct (match transformsMap !! action with
              | Some f => f v
              | None => Ok v
              end) as [v'|e']; [by eexists|].
    destruct errorHandler; by eexists.
  - run_proxy. by eexists.
Qed.

Lemma slice_dispatch_returns
    (transformsMap : gmap string (val -> result val)) (errorHandler : bool)
    (kvs : list (string * val)) (w : world) :
  exists w',
    forEach (fun kv => dispatch transformsMap errorHandler kv.2 kv.1) kvs w
      = (Ok tt, w').
Proof.
  revert w. induction kvs as [|[k v] kvs IH]; intros w; [by eexists|].
  cbn [forEach]. cbv [mbind act_bind]. cbn [fst snd].
  destruct (dispatch_returns transformsMap errorHandler v k w) as [w1 ->].
  apply IH.
Qed.

(** X28. The bulk dispatch of the [apply] trap returns for slices that are
    neither [undefined] nor [null], whatever the transforms do and whatever
    the state of the proxy is, since [dispatch] never throws. A slice that is
    [undefined] or [null] raises a [TypeError] to the caller: the slices
    before it have been dispatched, the ones after it are not. *)
Theorem bulk_dispatch_outcome
    (transformsMap : gmap string (val -> result val)) (errorHandler : bool)
    (pre rest : list val) (slice : val) (w : world) :
  Forall (fun p => nullish p = false) pre ->
  exists w',
    apply transformsMap errorHandler pre w = (Ok tt, w') /\
    (nullish slice = true ->
     apply transformsMap errorHandler (pre ++ slice :: rest) w
       = (Throw TypeError, w')).
Proof.
  intros Hpre. revert w. unfold apply.
  induction Hpre as [|p pre Hp _ IH]; intros w.
  - exists w. split; [done|]. intros Hs. cbn [app forEach].
    cbv [mbind act_bind lift objectEntries]. by rewrite Hs.
  - cbn [app forEach]. cbv [mbind act_bind lift objectEntries]. rewrite Hp.
    destruct (slice_dispatch_returns transformsMap errorHandler
                (map_to_list (spread p)) w) as [w1 ->].
    apply IH.
Qed.

(** ** The [get] trap *)

Lemma list_ascii_of_string_app (a b : string) :
  list_ascii_of_string (a ++ b) =
  (list_ascii_of_string a ++ list_ascii_of_string b)%list.
Proof.
  induction a as [|c a IH]; [done|].
  change (list_ascii_of_string (String c a ++ b))
    with (c :: list_ascii_of_string (a ++ b)).
  by rewrite IH.
Qed.

Lemma endsWith_app (name suffix : string) : endsWith (name ++ suffix) suffix = true.
Proof.
  unfold endsWith. apply bool_decide_eq_true.
  rewrite list_ascii_of_string_app. by apply suffix_app_r.
Qed.

Lemma dropLast_app (name suffix : string) :
  dropLast (String.length suffix) (name ++ suffix) = name.
Proof.
  unfold dropLast. cbv zeta. rewrite list_ascii_of_string_app, length_app.
  assert (length (list_ascii_of_string suffix) = String.length suffix) as ->.
  { induction suffix as [|c s IH]; [done|]. cbn. f_equal. apply IH. }
  replace (length (list_ascii_of_string name) + String.length suffix
           - String.length suffix) with (length (list_ascii_of_string name))
    by lia.
  by rewrite take_app_length, string_of_list_ascii_of_string.
Qed.

Lemma suffix_of_app_cases {A : Type} (l1 l2 n : list A) :
  l1 `suffix_of` (n ++ l2)%list -> l1 `suffix_of` l2 \/ l2 `suffix_of` l1.
Proof.
  intros [k Hk]. apply app_eq_inv in Hk as [(k' & -> & Hl)|(k' & -> & Hl)].
  - right. by exists k'.
  - left. by exists k'.
Qed.

Lemma endsWith_other (name s1 s2 : string) :
  endsWith s1 s2 = false ->
  endsWith s2 s1 = false ->
  endsWith (name ++ s1) s2 = false.
Proof.
  unfold endsWith. intros H12 H21. apply bool_decide_eq_false.
  apply bool_decide_eq_false in H12, H21. intros Hs.
  rewrite list_ascii_of_string_app in Hs.
  by apply suffix_of_app_cases in Hs as [?|?].
Qed.

Lemma dropLast_suffix (name suffix : string) (n : nat) :
  n = String.length suffix -> dropLast n (name ++ suffix) = name.
Proof. intros ->. apply dropLast_app. Qed.

(** X29. A property named after an action followed by [Loading$],
    [Complete$] or [Error$] is routed to that signal of the action; these
    tests come first, so for an action whose own name ends in [Loading],
    [Complete] or [Error] the property [name$] is a signal of the shorter
    name and not the stream of the action. *)
Theorem route_signals (name : string) :
  route (name ++ "Loading$") = LoadingOf name /\
  route (name ++ "Complete$") = CompleteOf name /\
  route (name ++ "Error$") = ErrorOf name.
Proof.
  assert (H1 : endsWith (name ++ "Complete$") "Loading$" = false).
  { by apply endsWith_other; vm_compute. }
  assert (H2 : endsWith (name ++ "Error$") "Loading$" = false).
  { by apply endsWith_other; vm_compute. }
  assert (H3 : endsWith (name ++ "Error$") "Complete$" = false).
  { by apply endsWith_other; vm_compute. }
  unfold route. split_and!.
  - by rewrite endsWith_app, (dropLast_suffix name "Loading$").
  - by rewrite H1, endsWith_app, (dropLast_suffix name "Complete$").
  - by rewrite H2, H3, endsWith_app, (dropLast_suffix name "Error$").
Qed.

Lemma endsWith_dollar (name suffix : string) :
  endsWith suffix "$" = true ->
  endsWith name "$" = false ->
  endsWith name suffix = false.
Proof.
  unfold endsWith. intros Hs Hn. apply bool_decide_eq_false.
  apply bool_decide_eq_true in Hs. apply bool_decide_eq_false in Hn.
  intros H. apply Hn. by etrans.
Qed.

Lemma substring_all (s : string) : String.substring 0 (String.length s) s = s.
Proof. induction s as [|c s IH]; [done|]. cbn. by rewrite IH. Qed.

(** X30. A property that does not end in [$] and does not start with [on] is
    the dispatcher of the action of that name. One that starts with [on] is
    never a dispatcher, so an action whose name starts with [on] has none: the
    property is the registration of an effect for the rest of the name, with
    its first character lowered when it is one of [A]-[Z] and kept when it is
    another ASCII character. *)
Theorem route_dispatcher (name : string) :
  endsWith name "$" = false ->
  (String.prefix "on" name = false -> route name = DispatcherOf name) /\
  (String.prefix "on" name = true ->
   forall action, route name ≠ DispatcherOf action) /\
  (forall c rest, name = "on" ++ String c rest ->
     ((65 <= nat_of_ascii c <= 90)%nat ->
      route name =
        EffectOf (Some (String (ascii_of_nat (nat_of_ascii c + 32)) rest))) /\
     ((nat_of_ascii c < 65 \/ 90 < nat_of_ascii c < 128)%nat ->
      route name = EffectOf (Some (String c rest)))).
Proof.
  intros Hd. unfold route.
  rewrite (endsWith_dollar name "Loading$"), (endsWith_dollar name "Complete$"),
    (endsWith_dollar name "Error$"), Hd by done.
  split; [by intros ->|]. split; [by intros -> action|].
  intros c rest ->.
  change ("on" ++ String c rest) with (String "o" (String "n" (String c rest))).
  assert (String.prefix "on" (String "o" (String "n" (String c rest))) = true)
    as -> by reflexivity.
  assert (String.substring 2
            (String.length (String "o" (String "n" (String c rest))) - 2)
            (String "o" (String "n" (String c rest))) = String c rest) as ->.
  { cbn [String.length]. rewrite Nat.sub_succ, Nat.sub_succ, Nat.sub_0_r.
    cbn [String.substring]. by rewrite substring_all. }
  cbn [lowerFirst]. unfold lowerChar. cbv zeta. split.
  - intros [H1 H2].
    assert ((128 <=? nat_of_ascii c)%nat = false) as ->
      by (apply Nat.leb_gt; lia).
    assert ((65 <=? nat_of_ascii c)%nat = true) as -> by (by apply Nat.leb_le).
    assert ((nat_of_ascii c <=? 90)%nat = true) as -> by (by apply Nat.leb_le).
    done.
  - intros H.
    assert ((128 <=? nat_of_ascii c)%nat = false) as ->
      by (apply Nat.leb_gt; lia).
    destruct H as [H|[H _]].
    + assert ((65 <=? nat_of_ascii c)%nat = false) as ->
        by (by apply Nat.leb_gt).
      done.
    + assert ((nat_of_ascii c <=? 90)%nat = false) as ->
        by (by apply Nat.leb_gt).
      by rewrite andb_false_r.
Qed.

(** ** Instances of the further properties on the sample data *)

Lemma entity_flags_keep_values_witness :
  entries sampleCollection = Some sampleEntries /\
  (exists C1, setEntityLoading sampleCollection "1" = Ok C1 /\
              selectEntity "1" C1 = selectEntity "1" sampleCollection) /\
  (exists C2, setEntityError sampleCollection "1" = Ok C2 /\
              selectEntity "1" C2 = selectEntity "1" sampleCollection).
Proof.
  assert (H1 : entries sampleCollection = Some sampleEntries)
    by (vm_compute; reflexivity).
  split; [exact H1|].
  exact (entity_flags_keep_values sampleCollection "1" "1" sampleEntries H1).
Defined.

Lemma selectEntityWithContext_after_flags_witness :
  entries sampleCollection = Some sampleEntries /\
  (exists C1, setEntityLoading sampleCollection "1" = Ok C1 /\
     selectEntityWithContext "1" C1 =
       VObj {[ "value" := selectEntity "1" sampleCollection;
           "loading" := VBool true;
               "error" := VBool false ]}) /\
  (exists C2, setEntityError sampleCollection "1" = Ok C2 /\
     selectEntityWithContext "1" C2 =
       VObj {[ "value" := selectEntity "1" sampleCollection;
           "loading" := VBool false;
               "error" := VBool true ]}).
Proof.
  assert (H1 : entries sampleCollection = Some sampleEntries)
    by (vm_compute; reflexivity).
  split; [exact H1|].
  exact (selectEntityWithContext_after_flags sampleCollection "1"
           sampleEntries H1).
Defined.

Lemma updateEntity_empty_update_witness :
  entries sampleTaskCollection = Some sampleTasks /\
  sampleTasks !! "7" = Some (VObj sampleTaskEntry) /\
  sampleTaskEntry !! "value" = Some (VObj sampleTaskFields) /\
  updateEntity sampleTaskCollection "7" (lit []) = Ok sampleTaskCollection.
Proof.
  assert (H1 : entries sampleTaskCollection = Some sampleTasks)
    by (vm_compute; reflexivity).
  assert (H2 : sampleTasks !! "7" = Some (VObj sampleTaskEntry))
    by (vm_compute; reflexivity).
  assert (H3 : sampleTaskEntry !! "value" = Some (VObj sampleTaskFields))
    by (vm_compute; reflexivity).
  split; [exact H1|]. split; [exact H2|]. split; [exact H3|].
  exact (updateEntity_empty_update sampleTaskCollection "7" sampleTasks
           sampleTaskEntry sampleTaskFields H1 H2 H3).
Defined.

Lemma updateEntity_twice_witness :
  entries sampleTaskCollection = Some sampleTasks /\
  sampleTasks !! "7" = Some (VObj sampleTaskEntry) /\
  nullish (VObj sampleTaskEntry) = false /\
  exists C1,
    updateEntity sampleTaskCollection "7" (VObj completedFields) = Ok C1 /\
    updateEntity C1 "7" (VObj loadingMarker) =
        updateEntity sampleTaskCollection "7"
            (lit [Spread (VObj completedFields); Spread (VObj loadingMarker)]).
Proof.
  assert (H1 : entries sampleTaskCollection = Some sampleTasks)
    by (vm_compute; reflexivity).
  assert (H2 : sampleTasks !! "7" = Some (VObj sampleTaskEntry))
    by (vm_compute; reflexivity).
  assert (H3 : nullish (VObj sampleTaskEntry) = false)
    by reflexivity.
  split; [exact H1|]. split; [exact H2|]. split; [exact H3|].
  exact (updateEntity_twice sampleTaskCollection "7" (VObj completedFields)
           (VObj loadingMarker) (VObj sampleTaskEntry) sampleTasks H1 H2 H3).
Defined.

Lemma removeEntity_then_select_witness :
  entries sampleCollection = Some sampleEntries /\
  exists C',
    removeEntity sampleCollection "1" = Ok C' /\
    selectEntity "1" C' = VUndef /\
    forall j, j ≠ "1" -> selectEntity j C' = selectEntity j sampleCollection.
Proof.
  assert (H1 : entries sampleCollection = Some sampleEntries)
    by (vm_compute; reflexivity).
  split; [exact H1|].
  exact (removeEntity_then_select sampleCollection "1" sampleEntries H1).
Defined.

Lemma entity_helpers_need_mapping_witness :
  nullish (prop (VObj loadingMarker) "value") = true /\
  setEntityLoading (VObj loadingMarker) "1" = Throw TypeError /\
  setEntityError (VObj loadingMarker) "1" = Throw TypeError /\
  updateEntity (VObj loadingMarker) "1" (VObj completedFields) =
      Throw TypeError /\
  removeEntity (VObj loadingMarker) "1" = Throw TypeError.
Proof.
  assert (H1 : nullish (prop (VObj loadingMarker) "value") = true)
    by (vm_compute; reflexivity).
  split; [exact H1|].
  exact (entity_helpers_need_mapping loadingMarker "1"
           (VObj completedFields) H1).
Defined.

Lemma withTrackedEntityCollection_round_trip_witness :
  Forall (fun e => nullish e = false)
      (asArray (inl [sampleTodo; VObj sampleTaskFields])) /\
  NoDup (idOf None <$> asArray (inl [sampleTodo; VObj sampleTaskFields])) /\
  exists update,
    withTrackedEntityCollection None
        [Value (inl [sampleTodo; VObj sampleTaskFields]); End] =
      [Next (VObj {[ "loading" := VBool true ]}); Next update;
       Next (VObj {[ "loading" := VBool false ]}); Complete] /\
    prop update "error" = VBool false /\
    prop update "loading" = VUndef /\
    forall e, e ∈ asArray (inl [sampleTodo; VObj sampleTaskFields]) ->
        selectEntity (idOf None e) update = e.
Proof.
  assert (H1 : Forall (fun e => nullish e = false)
      (asArray (inl [sampleTodo; VObj sampleTaskFields])))
    by repeat constructor.
  assert (H2 : NoDup
      (idOf None <$> asArray (inl [sampleTodo; VObj sampleTaskFields])))
    by (vm_compute; apply NoDup_ListNoDup; repeat constructor; simpl;
        intuition discriminate).
  split; [exact H1|]. split; [exact H2|].
  exact (withTrackedEntityCollection_round_trip None
           (inl [sampleTodo; VObj sampleTaskFields]) H1 H2).
Defined.

Lemma merge_of_an_existing_entity_witness :
  entries sampleTaskCollection = Some sampleTasks /\
  completedUpdate !! "value" = Some (VObj completedEntries) /\
  sampleTasks !! "7" = Some (VObj sampleTaskEntry) /\
  sampleTaskEntry !! "value" = Some (VObj sampleTaskFields) /\
  completedEntries !! "7" = Some (VObj completedEntry) /\
  completedEntry !! "value" = Some (VObj completedFields) /\
  (exists R es',
     mergeCollectionState sampleTaskCollection (VObj completedUpdate) =
         Ok R /\ entries R = Some es' /\
     es' !! "7" =
         Some (VObj (<["value" := VObj (completedFields ∪ sampleTaskFields)]>
             (completedEntry ∪ sampleTaskEntry)))) /\
  (exists R es',
     mergeEntityContext sampleTaskCollection (VObj completedUpdate) =
         Ok R /\ entries R = Some es' /\
     es' !! "7" = Some (VObj completedEntry)).
Proof.
  assert (H1 : entries sampleTaskCollection = Some sampleTasks)
    by (vm_compute; reflexivity).
  assert (H2 : completedUpdate !! "value" = Some (VObj completedEntries))
    by (vm_compute; reflexivity).
  assert (H3 : sampleTasks !! "7" = Some (VObj sampleTaskEntry))
    by (vm_compute; reflexivity).
  assert (H4 : sampleTaskEntry !! "value" = Some (VObj sampleTaskFields))
    by (vm_compute; reflexivity).
  assert (H5 : completedEntries !! "7" = Some (VObj completedEntry))
    by (vm_compute; reflexivity).
  assert (H6 : completedEntry !! "value" = Some (VObj completedFields))
    by (vm_compute; reflexivity).
  split; [exact H1|]. split; [exact H2|]. split; [exact H3|].
  split; [exact H4|]. split; [exact H5|]. split; [exact H6|].
  exact (merge_of_an_existing_entity sampleTaskCollection sampleTasks
           completedUpdate completedEntries sampleTaskEntry completedEntry
           sampleTaskFields completedFields "7" H1 H2 H3 H4 H5 H6).
Defined.

Lemma mergeCollectionState_flags_only_witness :
  entries sampleCollection = Some sampleEntries /\
  loadingMarker !! "value" = None /\
  exists R,
    mergeCollectionState sampleCollection (VObj loadingMarker) = Ok R /\
    entries R = Some sampleEntries /\
    forall f v, loadingMarker !! f = Some v -> prop R f = v.
Proof.
  assert (H1 : entries sampleCollection = Some sampleEntries)
    by (vm_compute; reflexivity).
  assert (H2 : loadingMarker !! "value" = None)
    by (vm_compute; reflexivity).
  split; [exact H1|]. split; [exact H2|].
  exact (mergeCollectionState_flags_only sampleCollection sampleEntries
           loadingMarker H1 H2).
Defined.

Lemma loadAll_merges_fetched_entities_witness :
  sampleState !! "todos" = Some sampleTaskCollection /\
  entries sampleTaskCollection = Some sampleTasks /\
  Forall (fun e => nullish e = false) [sampleTodo] /\
  NoDup (idOf None <$> [sampleTodo]) /\
  exists S' T es',
    reduceAll (connectState loadAllProject) (VObj sampleState)
      (values (withTrackedEntityCollection None
          [Value (inl [sampleTodo]); End]))
      = Ok S' /\
    prop S' "todos" = T /\
    prop T "loading" = VBool false /\
    prop T "error" = VBool false /\
    entries T = Some es' /\
    (forall eo, VObj eo ∈ [sampleTodo] -> sampleTasks !! idOf None (VObj eo) =
        None ->
       selectEntity (idOf None (VObj eo)) T = VObj eo) /\
    (forall j, j ∉ idOf None <$> [sampleTodo] -> es' !! j = sampleTasks !! j).
Proof.
  assert (H1 : sampleState !! "todos" = Some sampleTaskCollection)
    by (vm_compute; reflexivity).
  assert (H2 : entries sampleTaskCollection = Some sampleTasks)
    by (vm_compute; reflexivity).
  assert (H3 : Forall (fun e => nullish e = false) [sampleTodo])
    by repeat constructor.
  assert (H4 : NoDup (idOf None <$> [sampleTodo]))
    by (vm_compute; apply NoDup_singleton).
  split; [exact H1|]. split; [exact H2|]. split; [exact H3|].
  split; [exact H4|].
  exact (loadAll_merges_fetched_entities sampleState sampleTasks
           sampleTaskCollection None [sampleTodo] H1 H2 H3 H4).
Defined.

Lemma mergeEntityContext_idempotent_witness :
  entries sampleCollection = Some sampleEntries /\
  otherResponse !! "value" = Some (VObj otherEntries) /\
  exists R,
    mergeEntityContext sampleCollection (VObj otherResponse) = Ok R /\
    mergeEntityContext R (VObj otherResponse) = Ok R.
Proof.
  assert (H1 : entries sampleCollection = Some sampleEntries)
    by (vm_compute; reflexivity).
  assert (H2 : otherResponse !! "value" = Some (VObj otherEntries))
    by (vm_compute; reflexivity).
  split; [exact H1|]. split; [exact H2|].
  exact (mergeEntityContext_idempotent sampleCollection sampleEntries
           otherResponse otherEntries H1 H2).
Defined.

Lemma mergeEntityContext_order_witness :
  entries sampleCollection = Some sampleEntries /\
  otherResponse !! "value" = Some (VObj otherEntries) /\
  completedUpdate !! "value" = Some (VObj completedEntries) /\
  exists R1 R2 R12 R21,
    mergeEntityContext sampleCollection (VObj otherResponse) = Ok R1 /\
    mergeEntityContext R1 (VObj completedUpdate) = Ok R12 /\
    mergeEntityContext sampleCollection (VObj completedUpdate) = Ok R2 /\
    mergeEntityContext R2 (VObj otherResponse) = Ok R21 /\
    entries R12 = Some (completedEntries ∪ (otherEntries ∪ sampleEntries)) /\
    entries R21 = Some (otherEntries ∪ (completedEntries ∪ sampleEntries)) /\
    (dom otherEntries ## dom completedEntries -> entries R12 = entries R21).
Proof.
  assert (H1 : entries sampleCollection = Some sampleEntries)
    by (vm_compute; reflexivity).
  assert (H2 : otherResponse !! "value" = Some (VObj otherEntries))
    by (vm_compute; reflexivity).
  assert (H3 : completedUpdate !! "value" = Some (VObj completedEntries))
    by (vm_compute; reflexivity).
  split; [exact H1|]. split; [exact H2|]. split; [exact H3|].
  exact (mergeEntityContext_order sampleCollection sampleEntries
           otherResponse otherEntries completedUpdate completedEntries
           H1 H2 H3).
Defined.

Lemma mergeEntityContext_without_state_witness :
  nullish VUndef = true /\
  otherResponse !! "value" = Some (VObj otherEntries) /\
  exists R,
    mergeEntityContext VUndef (VObj otherResponse) = Ok R /\
    entries R = Some otherEntries /\
    (otherResponse !! "loading" = None -> prop R "loading" = VBool false) /\
    (forall f v, f ≠ "value" -> otherResponse !! f = Some v -> prop R f = v).
Proof.
  assert (H1 : nullish VUndef = true)
    by reflexivity.
  assert (H2 : otherResponse !! "value" = Some (VObj otherEntries))
    by (vm_compute; reflexivity).
  split; [exact H1|]. split; [exact H2|].
  exact (mergeEntityContext_without_state VUndef otherResponse otherEntries
           H1 H2).
Defined.

Lemma withContextError_shape_witness :
  "1" ≠ "" /\
  nullish VUndef = true /\
  (exists P,
     withContextError (VObj boomFields) (Some "1") = Ok P /\
     prop P "loading" = VBool false /\
     prop P "error" =
         or_else (prop (VObj boomFields) "message")
             (VStr "An error occurred") /\
     truthy (prop P "error") = true /\
     entries P = Some {[ "1" := VObj {[ "value" := VNull;
                                       "loading" := VBool false;
                                       "error" := prop (VObj boomFields)
                                           "message" ]} ]}) /\
  (exists P,
     withContextError (VObj boomFields) None = Ok P /\
     prop P "loading" = VBool false /\
     truthy (prop P "error") = true /\
     entries P = Some ∅) /\
  withContextError VUndef (Some "1") = Throw TypeError /\
  withContextError VUndef None = Throw TypeError.
Proof.
  assert (H1 : "1" ≠ "")
    by discriminate.
  assert (H2 : nullish VUndef = true)
    by reflexivity.
  split; [exact H1|]. split; [exact H2|].
  exact (withContextError_shape boomFields "1" VUndef H1 H2).
Defined.

Lemma withContextResponse_round_trip_witness :
  entries sampleCollection = Some sampleEntries /\
  "7" ≠ "" /\
  exists R,
    mergeEntityContext sampleCollection
        (withContextResponse (VObj sampleTaskFields) (Some "7")) = Ok R /\
    selectEntity "7" R = (VObj sampleTaskFields) /\
    (forall j, j ≠ "7" -> selectEntity j R = selectEntity j sampleCollection) /\
    prop R "loading" = VBool false /\
    prop R "error" = VNull.
Proof.
  assert (H1 : entries sampleCollection = Some sampleEntries)
    by (vm_compute; reflexivity).
  assert (H2 : "7" ≠ "")
    by discriminate.
  split; [exact H1|]. split; [exact H2|].
  exact (withContextResponse_round_trip sampleCollection
           (VObj sampleTaskFields) "7" sampleEntries H1 H2).
Defined.

Lemma toggle_twice_witness :
  sampleState !! "todos" = Some sampleTaskCollection /\
  entries sampleTaskCollection = Some sampleTasks /\
  sampleTasks !! toStr (VNum 7) = Some (VObj sampleTaskEntry) /\
  sampleTaskEntry !! "value" = Some (VObj sampleTaskFields) /\
  sampleTaskFields !! "completed" = Some (VBool false) /\
  (exists S1,
     connectState toggleProject (VObj sampleState) (VNum 7) = Ok S1 /\
     selectEntity (toStr (VNum 7)) (prop S1 "todos") =
       VObj (<["completed" := VBool (negb false)]> sampleTaskFields) /\
     (forall j, j ≠ toStr (VNum 7) ->
        selectEntity j (prop S1 "todos") =
            selectEntity j sampleTaskCollection) /\
     connectState toggleProject S1 (VNum 7) = Ok (VObj sampleState)) /\
  (forall id', sampleTasks !! toStr id' = None ->
     connectState toggleProject (VObj sampleState) id' = Throw TypeError).
Proof.
  assert (H1 : sampleState !! "todos" = Some sampleTaskCollection)
    by (vm_compute; reflexivity).
  assert (H2 : entries sampleTaskCollection = Some sampleTasks)
    by (vm_compute; reflexivity).
  assert (H3 : sampleTasks !! toStr (VNum 7) = Some (VObj sampleTaskEntry))
    by (vm_compute; reflexivity).
  assert (H4 : sampleTaskEntry !! "value" = Some (VObj sampleTaskFields))
    by (vm_compute; reflexivity).
  assert (H5 : sampleTaskFields !! "completed" = Some (VBool false))
    by (vm_compute; reflexivity).
  split; [exact H1|]. split; [exact H2|]. split; [exact H3|].
  split; [exact H4|]. split; [exact H5|].
  exact (toggle_twice sampleState sampleTasks sampleTaskEntry
           sampleTaskFields sampleTaskCollection (VNum 7) false H1 H2 H3 H4 H5).
Defined.

Lemma selectIsLoading_spec_witness :
  entries sampleCollection = Some sampleEntries /\
  (forall k e, sampleEntries !! k = Some e -> nullish e = false) /\
  (selectIsLoading sampleCollection = Ok (VBool true) \/
      selectIsLoading sampleCollection = Ok (VBool false)) /\
  (selectIsLoading sampleCollection = Ok (VBool true) <->
   truthy (prop sampleCollection "loading") = true \/
   exists k e, sampleEntries !! k = Some e /\ truthy (prop e "loading") = true).
Proof.
  assert (H1 : entries sampleCollection = Some sampleEntries)
    by (vm_compute; reflexivity).
  assert (H2 : forall k e, sampleEntries !! k = Some e -> nullish e = false)
    by (unfold sampleEntries; intros k e [_ <-]%lookup_singleton_Some;
        reflexivity).
  split; [exact H1|]. split; [exact H2|].
  exact (selectIsLoading_spec sampleCollection sampleEntries H1 H2).
Defined.

Lemma fetchTodos_failure_stream_witness :
  sampleState !! "todos" = Some sampleTaskCollection /\
  entries sampleTaskCollection = Some sampleTasks /\
  boomFields !! "message" = Some (VStr "boom") /\
  truthy (VStr "boom") = true /\
  exists P1 S1 S2,
    values (fetchTodosInner [Error (VObj boomFields)]) =
        [P1; failureUpdate (VStr "boom")] /\
    connect "todos" fetchTodosProject (VObj sampleState) P1 = Ok S1 /\
    prop (prop S1 "todos") "loading" = VBool false /\
    reduceAll (connect "todos" fetchTodosProject) (VObj sampleState)
      (values (fetchTodosInner [Error (VObj boomFields)])) = Ok S2 /\
    prop (prop S2 "todos") "error" = (VStr "boom") /\
    prop (prop S2 "todos") "loading" = VBool false /\
    entries (prop S2 "todos") = Some (<["loading" := VBool true]> sampleTasks).
Proof.
  assert (H1 : sampleState !! "todos" = Some sampleTaskCollection)
    by (vm_compute; reflexivity).
  assert (H2 : entries sampleTaskCollection = Some sampleTasks)
    by (vm_compute; reflexivity).
  assert (H3 : boomFields !! "message" = Some (VStr "boom"))
    by (vm_compute; reflexivity).
  assert (H4 : truthy (VStr "boom") = true)
    by reflexivity.
  split; [exact H1|]. split; [exact H2|]. split; [exact H3|].
  split; [exact H4|].
  exact (fetchTodos_failure_stream sampleState sampleTasks boomFields
           sampleTaskCollection (VStr "boom") H1 H2 H3 H4).
Defined.

Lemma dispatcher_untracked_witness :
  typeofObject (VNum 2) = false /\
  transformed noTransforms "loadAll" (VNum 2) = Ok (VNum 2) /\
  (forall s, subjectMap dispatchedWorld !! "loadAll" = Some s -> tracked s =
      false) /\
  exists w' t s',
    dispatcher noTransforms false "loadAll" [VNum 2] dispatchedWorld =
        (Ok tt, w') /\
    subjectMap w' !! "loadAll" = Some s' /\
    tracked s' = false /\
    sent s' = (default [] (sent <$> subjectMap dispatchedWorld !! "loadAll") ++
        [VNum 2])%list /\
    stateMap w' !! "loadAll" = Some t /\
    current (loading_ t) = Some (VBool true) /\
    current (complete_ t) = Some (VBool false) /\
    current (error_ t) = Some VNull /\
    handled w' = handled dispatchedWorld /\
    microtasks w' = microtasks dispatchedWorld /\
    getEventEmitter "loadAll" w' = (Ok tt, w').
Proof.
  assert (H1 : typeofObject (VNum 2) = false)
    by reflexivity.
  assert (H2 : transformed noTransforms "loadAll" (VNum 2) = Ok (VNum 2))
    by reflexivity.
  assert (H3 : forall s, subjectMap dispatchedWorld !! "loadAll" =
      Some s -> tracked s = false)
    by (intros s Hs; vm_compute in Hs; injection Hs as <-; reflexivity).
  split; [exact H1|]. split; [exact H2|]. split; [exact H3|].
  exact (dispatcher_untracked noTransforms false "loadAll" (VNum 2)
           (VNum 2) dispatchedWorld H1 H2 H3).
Defined.

Lemma dispatcher_tracked_settles_witness :
  typeofObject (VNum 1) = false /\
  noTransforms !! "loadAll" = None /\
  subjectMap trackedWorld !! "loadAll" = Some trackedSubject /\
  tracked trackedSubject = true /\
  stateMap trackedWorld !! "loadAll" = Some freshTracking /\
  exists w1 t1 w2 t2,
    dispatcher noTransforms false "loadAll" [VNum 1] trackedWorld =
        (Ok tt, w1) /\
    stateMap w1 !! "loadAll" = Some t1 /\
    current (loading_ t1) = Some (VBool true) /\
    ("loadAll" ∈ microtasks w1) /\
    settle "loadAll" w1 = (Ok tt, w2) /\
    stateMap w2 !! "loadAll" = Some t2 /\
    current (loading_ t2) = Some (VBool false) /\
    current (complete_ t2) = Some (VBool true) /\
    current (error_ t2) = Some VNull /\
    ("loadAll" ∉ microtasks w2) /\
    handled w2 = handled trackedWorld.
Proof.
  assert (H1 : typeofObject (VNum 1) = false)
    by reflexivity.
  assert (H2 : noTransforms !! "loadAll" = None)
    by reflexivity.
  assert (H3 : subjectMap trackedWorld !! "loadAll" = Some trackedSubject)
    by (vm_compute; reflexivity).
  assert (H4 : tracked trackedSubject = true)
    by reflexivity.
  assert (H5 : stateMap trackedWorld !! "loadAll" = Some freshTracking)
    by (vm_compute; reflexivity).
  split; [exact H1|]. split; [exact H2|]. split; [exact H3|].
  split; [exact H4|]. split; [exact H5|].
  exact (dispatcher_tracked_settles noTransforms false "loadAll" (VNum 1)
           trackedWorld trackedSubject freshTracking H1 H2 H3 H4 H5).
Defined.

Lemma dispatcher_silent_witness :
  truthy (prop (VObj silentConfig) "silent") = true /\
  noTransforms !! "loadAll" = None /\
  subjectMap trackedWorld !! "loadAll" = Some trackedSubject /\
  stateMap trackedWorld !! "loadAll" = Some freshTracking /\
  exists w' t s',
    dispatcher noTransforms false "loadAll" [VNum 1; VObj silentConfig]
        trackedWorld
      = (Ok tt, w') /\
    subjectMap w' !! "loadAll" = Some s' /\
    sent s' = (sent trackedSubject ++ [VNum 1])%list /\
    stateMap w' !! "loadAll" = Some t /\
    loading_ t =
        if tracked trackedSubject then
            (loading_ freshTracking ++ [VBool true])%list
                 else loading_ freshTracking.
Proof.
  assert (H1 : truthy (prop (VObj silentConfig) "silent") = true)
    by (vm_compute; reflexivity).
  assert (H2 : noTransforms !! "loadAll" = None)
    by reflexivity.
  assert (H3 : subjectMap trackedWorld !! "loadAll" = Some trackedSubject)
    by (vm_compute; reflexivity).
  assert (H4 : stateMap trackedWorld !! "loadAll" = Some freshTracking)
    by (vm_compute; reflexivity).
  split; [exact H1|]. split; [exact H2|]. split; [exact H3|].
  split; [exact H4|].
  exact (dispatcher_silent noTransforms false "loadAll" (VNum 1)
           silentConfig trackedWorld trackedSubject freshTracking H1 H2 H3 H4).
Defined.

Lemma updateCollection_nullish_item_witness :
  Exists (fun e => nullish e = true) [sampleTodo; VNull] /\
  updateCollection [sampleTodo; VNull] None = Throw TypeError.
Proof.
  assert (H1 : Exists (fun e => nullish e = true) [sampleTodo; VNull])
    by (right; left; reflexivity).
  split; [exact H1|].
  exact (proj1 (updateCollection_nullish_item [sampleTodo; VNull] None) H1).
Defined.

Lemma withTrackedEntityCollection_failure_witness :
  Exists (fun e => nullish e = true) (asArray (inr VNull)) /\
  withTrackedEntityCollection None [Value (inr VNull); End] =
    [Next (VObj {[ "loading" := VBool true ]}); Error TypeError].
Proof.
  assert (H1 : Exists (fun e => nullish e = true) (asArray (inr VNull)))
    by (left; reflexivity).
  split; [exact H1|].
  exact (proj2 (withTrackedEntityCollection_failure None boom (inr VNull) [End])
           H1).
Defined.

Lemma dispatcher_object_payload_witness :
  noTransforms !! "loadAll" = None /\
  exists w' t s',
    dispatcher noTransforms false "loadAll" [VObj silentConfig] trackedWorld
      = (Ok tt, w') /\
    subjectMap w' !! "loadAll" = Some s' /\
    sent s' =
      (default [] (sent <$> subjectMap trackedWorld !! "loadAll")
       ++ [VUndef])%list /\
    stateMap w' !! "loadAll" = Some t /\
    loading_ t =
      (loading_ (default freshTracking (stateMap trackedWorld !! "loadAll"))
       ++ (if truthy (prop (VObj silentConfig) "silent") then []
           else [VBool true])
       ++ (if default false (tracked <$> subjectMap trackedWorld !! "loadAll")
           then [VBool true] else []))%list.
Proof.
  assert (H1 : noTransforms !! "loadAll" = None)
    by reflexivity.
  split; [exact H1|].
  exact (dispatcher_object_payload noTransforms false "loadAll" silentConfig
           trackedWorld H1).
Defined.

Lemma bulk_dispatch_outcome_witness :
  Forall (fun p => nullish p = false) [sampleSlice] /\
  nullish VNull = true /\
  exists w',
    apply throwingTransforms true [sampleSlice] emptyWorld = (Ok tt, w') /\
    apply throwingTransforms true [sampleSlice; VNull; sampleSlice] emptyWorld
      = (Throw TypeError, w').
Proof.
  assert (H1 : Forall (fun p => nullish p = false) [sampleSlice])
    by (repeat constructor).
  assert (H2 : nullish VNull = true)
    by reflexivity.
  split; [exact H1|]. split; [exact H2|].
  destruct (bulk_dispatch_outcome throwingTransforms true [sampleSlice]
              [sampleSlice] VNull emptyWorld H1) as (w' & Hpre & Hthrow).
  exists w'. split; [exact Hpre|exact (Hthrow H2)].
Defined.

Lemma route_dispatcher_witness :
  endsWith "loadAll" "$" = false /\
  String.prefix "on" "loadAll" = false /\
  route "loadAll" = DispatcherOf "loadAll" /\
  endsWith "onLoadAll" "$" = false /\
  String.prefix "on" "onLoadAll" = true /\
  (65 <= nat_of_ascii "L" <= 90)%nat /\
  (forall action, route "onLoadAll" ≠ DispatcherOf action) /\
  route "onLoadAll" = EffectOf (Some "loadAll").
Proof.
  assert (H1 : endsWith "loadAll" "$" = false)
    by (vm_compute; reflexivity).
  assert (H2 : String.prefix "on" "loadAll" = false)
    by reflexivity.
  assert (H3 : endsWith "onLoadAll" "$" = false)
    by (vm_compute; reflexivity).
  assert (H4 : String.prefix "on" "onLoadAll" = true)
    by reflexivity.
  assert (H5 : (65 <= nat_of_ascii "L" <= 90)%nat)
    by (vm_compute; lia).
  split; [exact H1|]. split; [exact H2|].
  split; [exact (proj1 (route_dispatcher "loadAll" H1) H2)|].
  split; [exact H3|]. split; [exact H4|]. split; [exact H5|].
  split; [exact (proj1 (proj2 (route_dispatcher "onLoadAll" H3)) H4)|].
  exact (proj1 (proj2 (proj2 (route_dispatcher "onLoadAll" H3))
                  "L"%char "oadAll" eq_refl) H5).
Defined.
